(** * Bulls and Cows: the game engine of [game_logic.py]

    A shallow embedding of class [BullsAndCowsGame] and of the Python
    builtins it calls, followed by the properties of the engine.

    Conventions of the embedding.
    - A Python [str] is the list of its code points; [len], [set], [isdigit],
      [zfill] and [int] are the builtins restricted to what the engine uses.
    - A code (the secret, a guess, a candidate) is a [list Z] of digits.
    - [set(x)] is observed only through [len] and [&]; it is the list of the
      distinct elements of [x].
    - The engine reports entropy and mutual information through
      [round(_, 2)]; such a value is represented by its number of
      hundredths, an integer ([12.15] is [1215]).
    - A method of the class is a function from the object's state to a
      result (a value or a raised exception) and the state it leaves.
    - The [print] calls of the engine (debugging output) are left out. *)

From Stdlib Require Import String ZArith List Bool Lia.
Import ListNotations.
Local Open Scope Z_scope.

(** ** Python builtins used by the engine *)

Module Py.

(** A character is its Unicode code point. *)
Definition char : Type := Z.
Definition str : Type := list char.

Definition len {A : Type} (l : list A) : Z := Z.of_nat (length l).

(** [set(x)]: the distinct elements of [x]. *)
Definition set (l : list Z) : list Z := nodup Z.eq_dec l.

Definition mem (x : Z) (l : list Z) : bool := existsb (Z.eqb x) l.

(** [a & b] on sets. *)
Definition set_and (a b : list Z) : list Z := filter (fun x => mem x b) a.

(** Code points with Unicode property Numeric_Type=Decimal (category Nd),
    as ranges [lo, hi]; every range starts at a digit zero, so the digit
    value of [c] is [(c - lo) mod 10].  These are the characters [int]
    accepts and [str.isdecimal] recognises (Unicode 14.0, CPython 3.11). *)
Definition decimal_ranges : list (Z * Z) :=
  [(48, 57); (1632, 1641); (1776, 1785); (1984, 1993); (2406, 2415);
   (2534, 2543); (2662, 2671); (2790, 2799); (2918, 2927); (3046, 3055);
   (3174, 3183); (3302, 3311); (3430, 3439); (3558, 3567); (3664, 3673);
   (3792, 3801); (3872, 3881); (4160, 4169); (4240, 4249); (6112, 6121);
   (6160, 6169); (6470, 6479); (6608, 6617); (6784, 6793); (6800, 6809);
   (6992, 7001); (7088, 7097); (7232, 7241); (7248, 7257); (42528, 42537);
   (43216, 43225); (43264, 43273); (43472, 43481); (43504, 43513);
   (43600, 43609); (44016, 44025); (65296, 65305); (66720, 66729);
   (68912, 68921); (69734, 69743); (69872, 69881); (69942, 69951);
   (70096, 70105); (70384, 70393); (70736, 70745); (70864, 70873);
   (71248, 71257); (71360, 71369); (71472, 71481); (71904, 71913);
   (72016, 72025); (72784, 72793); (73040, 73049); (73120, 73129);
   (92768, 92777); (92864, 92873); (93008, 93017); (120782, 120831);
   (123200, 123209); (123632, 123641); (125264, 125273); (130032, 130041)].

(** Code points with Numeric_Type=Digit that are not decimal: superscripts,
    subscripts, circled digits and the like.  [str.isdigit] is true on
    them, [int] rejects them. *)
Definition digit_only_ranges : list (Z * Z) :=
  [(178, 179); (185, 185); (4969, 4977); (6618, 6618); (8304, 8304);
   (8308, 8313); (8320, 8329); (9312, 9320); (9332, 9340); (9352, 9360);
   (9450, 9450); (9461, 9469); (9471, 9471); (10102, 10110); (10112, 10120);
   (10122, 10130); (68160, 68163); (69216, 69224); (69714, 69722);
   (127232, 127242)].

Definition in_range (c : char) (r : Z * Z) : bool :=
  (fst r <=? c) && (c <=? snd r).

Definition in_ranges (c : char) (rs : list (Z * Z)) : bool :=
  existsb (in_range c) rs.

Definition isdecimal_char (c : char) : bool := in_ranges c decimal_ranges.

Definition isdigit_char (c : char) : bool :=
  in_ranges c decimal_ranges || in_ranges c digit_only_ranges.

(** [s.isdigit()]: every character is a digit and there is at least one. *)
Definition isdigit (s : str) : bool :=
  match s with
  | [] => false
  | _ => forallb isdigit_char s
  end.

(** [int(c)] for a one-character string [c]: its decimal value, or
    [None] where Python raises [ValueError]. *)
Definition int_char (c : char) : option Z :=
  match find (in_range c) decimal_ranges with
  | Some r => Some ((c - fst r) mod 10)
  | None => None
  end.

(** [list(map(int, s))], [None] where a character makes [int] raise. *)
Fixpoint map_int (s : str) : option (list Z) :=
  match s with
  | [] => Some []
  | c :: s' =>
      match int_char c with
      | None => None
      | Some d =>
          match map_int s' with
          | None => None
          | Some ds => Some (d :: ds)
          end
      end
  end.

(** [str(i)] for a non-negative integer: its decimal numeral, most
    significant digit first.  [fuel] bounds the number of digits. *)
Fixpoint str_digits (fuel : nat) (i : Z) (acc : str) : str :=
  match fuel with
  | O => acc
  | S fuel' =>
      let acc' := (48 + i mod 10) :: acc in
      if i / 10 =? 0 then acc' else str_digits fuel' (i / 10) acc'
  end.

Definition str_of_int (i : Z) : str :=
  str_digits (S (Z.to_nat (Z.log2 i))) i [].

(** [s.zfill(width)] for a string without sign. *)
Definition zfill (width : Z) (s : str) : str :=
  repeat 48 (Z.to_nat (width - len s)) ++ s.

(** [range(n)] *)
Definition range (n : Z) : list Z := map Z.of_nat (seq 0 (Z.to_nat n)).

(** A string literal of ASCII characters as a [str]. *)
Definition of_string (s : string) : str :=
  map (fun a => Z.of_N (Ascii.N_of_ascii a)) (list_ascii_of_string s).

End Py.

(** ** Results and exceptions *)

Inductive exn : Type := ValueError.

Inductive res (A : Type) : Type :=
| Ok (a : A)
| Raise (e : exn).
Arguments Ok {A} a.
Arguments Raise {A} e.

Definition bind {A B : Type} (m : res A) (k : A -> res B) : res B :=
  match m with
  | Ok a => k a
  | Raise e => Raise e
  end.

Notation "x <- m ;; k" := (bind m (fun x => k))
  (at level 61, m at next level, right associativity).

(** ** The engine *)

Definition code : Type := list Z.

Fixpoint code_eqb (a b : code) : bool :=
  match a, b with
  | [], [] => true
  | x :: a', y :: b' => (x =? y) && code_eqb a' b'
  | _, _ => false
  end.

Definition feedback_eqb (x y : Z * Z) : bool :=
  (fst x =? fst y) && (snd x =? snd y).

(** The attributes of a [BullsAndCowsGame] object. *)
Record game : Type := mkGame {
  secret : code;
  attempts : Z;
  previous_guesses : list code;
  all_possible_guesses : list code;
  valid_guesses : list code
}.

(** The string [process_guess] returns for a rejected input. *)
Definition invalid_message : string := "Invalid Input: Enter 4 unique digits!".

(** What [process_guess] returns: the string [invalid_message], the
    congratulation string (which carries [self.attempts]), or the tuple
    [(bulls, cows, mutual_information, entropy)], the last two in
    hundredths. *)
Inductive outcome : Type :=
| InvalidInput
| Congratulations (n_attempts : Z)
| Progress (bulls cows mutual_information entropy : Z).

(** [sum(s == g for s, g in zip(secret, guess))] *)
Definition count_bulls (s g : code) : Z :=
  fold_right (fun p acc => (if fst p =? snd p then 1 else 0) + acc) 0
             (combine s g).

(** The scoring of [calculate_bulls_and_cows] as a function of the
    reference [s] (always [self.secret] in the source) and its argument. *)
Definition bulls_and_cows (s guess : code) : Z * Z :=
  let bulls := count_bulls s guess in
  let cows := Py.len (Py.set_and (Py.set s) (Py.set guess)) - bulls in
  (bulls, cows).

Definition calculate_bulls_and_cows (self : game) (guess : code) : Z * Z :=
  bulls_and_cows (secret self) guess.

(** One element of the comprehension of [generate_possible_guesses]:
    the test is on [str(i)], the code is built from [str(i).zfill(4)]. *)
Definition possible_guess (i : Z) : res (list code) :=
  if Py.len (Py.set (Py.str_of_int i)) =? 4 then
    match Py.map_int (Py.zfill 4 (Py.str_of_int i)) with
    | Some c => Ok [c]
    | None => Raise ValueError
    end
  else Ok [].

Fixpoint comprehension (f : Z -> res (list code)) (l : list Z) : res (list code) :=
  match l with
  | [] => Ok []
  | i :: l' =>
      x <- f i ;;
      xs <- comprehension f l' ;;
      Ok (x ++ xs)
  end.

Definition generate_possible_guesses : res (list code) :=
  comprehension possible_guess (Py.range 10000).

(** [__init__]; the draw [sample(range(10), 4)] is the argument [s]. *)
Definition init (s : code) : res game :=
  u <- generate_possible_guesses ;;
  Ok (mkGame s 0 [] u u).

(** What [sample(range(10), 4)] can return. *)
Definition is_sample (s : code) : Prop :=
  length s = 4%nat /\ NoDup s /\ Forall (fun d => 0 <= d <= 9) s.

Definition update_valid_guesses (self : game) (guess : code) (bulls cows : Z) : game :=
  mkGame (secret self) (attempts self) (previous_guesses self)
         (all_possible_guesses self)
         (filter (fun valid_guess =>
                    feedback_eqb (calculate_bulls_and_cows self valid_guess)
                                 (bulls, cows))
                 (all_possible_guesses self)).

(** [round(math.log2(n), 2)] in hundredths, for [n > 0]: the integer
    nearest to [100 * log2 n], which is [floor ((floor (200 * log2 n) + 1) / 2)]
    with [floor (200 * log2 n) = floor (log2 (n ^ 200))]. *)
Definition round2_log2 (n : Z) : Z := (Z.log2 (n ^ 200) + 1) / 2.

Definition calculate_entropy (self : game) : Z :=
  let remaining_possibilities := Py.len (valid_guesses self) in
  if remaining_possibilities >? 0 then round2_log2 remaining_possibilities
  else 0.

(** The difference of two values with two decimals has two decimals:
    [round(_, 2)] returns it. *)
Definition calculate_mutual_information (self : game) (previous_entropy : Z) : Z :=
  let current_entropy := calculate_entropy self in
  previous_entropy - current_entropy.

Definition with_attempts (self : game) (n : Z) : game :=
  mkGame (secret self) n (previous_guesses self)
         (all_possible_guesses self) (valid_guesses self).

Definition process_guess (self : game) (guess : Py.str) : res outcome * game :=
  if negb (Py.len guess =? 4) || negb (Py.isdigit guess)
     || negb (Py.len (Py.set guess) =? 4)
  then (Ok InvalidInput, self)
  else
    match Py.map_int guess with
    | None => (Raise ValueError, self)
    | Some guess =>
        let self1 := with_attempts self (attempts self + 1) in
        let '(bulls, cows) := calculate_bulls_and_cows self1 guess in
        let previous_entropy := calculate_entropy self1 in
        let self2 := update_valid_guesses self1 guess bulls cows in
        let mutual_information := calculate_mutual_information self2 previous_entropy in
        let entropy := calculate_entropy self2 in
        if bulls =? 4 then (Ok (Congratulations (attempts self2)), self2)
        else (Ok (Progress bulls cows mutual_information entropy), self2)
    end.

(** [reset_game]; the new draw is the argument [s]. *)
Definition reset_game (self : game) (s : code) : game :=
  mkGame s 0 [] (all_possible_guesses self) (all_possible_guesses self).

Definition value_or {A : Type} (d : A) (r : res A) : A :=
  match r with
  | Ok a => a
  | Raise _ => d
  end.

(** The candidate list the constructor builds
    (see [generate_possible_guesses_universe]). *)
Definition universe : list code :=
  Eval vm_compute in value_or [] generate_possible_guesses.

(** A session: the engine is constructed with secret [s] and the shell
    submits the strings [raws] one after the other; a raised exception
    ends nothing in the engine, the shell's event loop goes on. *)
Definition submit (self : game) (raw : Py.str) : game := snd (process_guess self raw).

Definition new_game (s : code) : game := mkGame s 0 [] universe universe.

Definition session (s : code) (raws : list Py.str) : game :=
  fold_left submit raws (new_game s).

(** The test that opens [process_guess], as a predicate on the raw string:
    [true] when the submitted string goes past the validation. *)
Definition passes_validation (guess : Py.str) : bool :=
  negb (negb (Py.len guess =? 4) || negb (Py.isdigit guess)
        || negb (Py.len (Py.set guess) =? 4)).

(** The states an engine object can be in: constructed, then any number of
    submitted strings and resets. *)
Inductive reachable : game -> Prop :=
| reach_init s g : is_sample s -> init s = Ok g -> reachable g
| reach_guess g raw : reachable g -> reachable (submit g raw)
| reach_reset g s : reachable g -> is_sample s -> reachable (reset_game g s).

(** ** Full-precision rounding, for comparison

    [round(log2 a - log2 b, 2)] computed without intermediate rounding is
    the [k] (in hundredths) with [k - 1/2 <= 100 * log2 (a / b) < k + 1/2],
    that is [2 ^ (2k - 1) <= (a / b) ^ 200 < 2 ^ (2k + 1)]. *)

(** [2 ^ e <= (a / b) ^ 200], stated on integers. *)
Definition pow2_le_ratio200 (e a b : Z) : bool :=
  2 ^ Z.max e 0 * b ^ 200 <=? 2 ^ Z.max (- e) 0 * a ^ 200.

Definition is_round2_log2_diff (a b k : Z) : bool :=
  pow2_le_ratio200 (2 * k - 1) a b && negb (pow2_le_ratio200 (2 * k + 1) a b).

(** The entropy [calculate_entropy] reports for a candidate list of [n]
    elements. *)
Definition entropy_of_size (n : Z) : Z :=
  if n >? 0 then round2_log2 n else 0.

(** ** Codes without a leading zero, for comparison *)

Definition digits : list Z := [0; 1; 2; 3; 4; 5; 6; 7; 8; 9].

(** Every sequence of four digits. *)
Definition quadruples : list code :=
  flat_map (fun a => flat_map (fun b => flat_map (fun c =>
    map (fun d => [a; b; c; d]) digits) digits) digits) digits.

(** Four pairwise distinct digits, the first of them not 0. *)
Definition distinct_no_leading_zero (c : code) : bool :=
  (Py.len c =? 4) && forallb (fun d => (0 <=? d) && (d <=? 9)) c
  && (Py.len (Py.set c) =? 4) && negb (hd 0 c =? 0).

(** ** Accepted submissions *)

(** A submitted string is accepted when it passes the validation and
    [list(map(int, guess))] does not raise: the guess is then processed. *)
Definition accepted (raw : Py.str) : bool :=
  passes_validation raw
  && match Py.map_int raw with Some _ => true | None => false end.

(** The digits that sit at the same position in both codes (the bulls). *)
Definition bull_digits (s g : code) : list Z :=
  map fst (filter (fun p => fst p =? snd p) (combine s g)).

(** A code of digits read as a decimal number. *)
Definition code_number (c : code) : Z :=
  fold_left (fun acc d => 10 * acc + d) c 0.

Fixpoint increasing (l : list Z) : bool :=
  match l with
  | x :: (y :: _) as t => (x <? y) && increasing t
  | _ => true
  end.

(** ** The window of [bulls_cows_ui.py]

    The part of [BullsAndCowsGameUI] that talks to the engine: the entry
    the guess is typed in, the feedback label, the list of logged guesses
    and the message boxes opened so far.  The texts of the label and of a
    list line are f-strings over the guess and the four numbers of the
    result; they are kept as these values. *)

Module UI.

Inductive dialog : Type :=
| showerror (title : string) (message : Py.str)
| showinfo (title : string) (message : Py.str).

Record window : Type := mkWindow {
  game_of : game;
  input_entry : Py.str;
  feedback_label : option (Z * Z * Z * Z);
  guesses_list : list (Py.str * (Z * Z * Z * Z));
  shown : list dialog
}.

(** The string the engine returns on a win. *)
Definition congratulations_message (n : Z) : Py.str :=
  Py.of_string "Congratulations! You guessed the number in "
  ++ Py.str_of_int n ++ Py.of_string " attempts!".

Definition info_message (n : Z) : Py.str :=
  Py.of_string "You guessed the number in "
  ++ Py.str_of_int n ++ Py.of_string " attempts!".

(** The window once the engine is constructed with secret [s]. *)
Definition init (s : code) : window :=
  mkWindow (new_game s) [] None [] [].

(** The callback of the Submit button.  An exception raised by the engine
    leaves the callback; the widgets are as they were. *)
Definition process_guess (w : window) : res unit * window :=
  let guess := input_entry w in
  match process_guess (game_of w) guess with
  | (Raise e, g) =>
      (Raise e, mkWindow g (input_entry w) (feedback_label w) (guesses_list w) (shown w))
  | (Ok InvalidInput, g) =>
      (Ok tt, mkWindow g (input_entry w) (feedback_label w) (guesses_list w)
                       (shown w ++ [showerror "Invalid Input" (Py.of_string invalid_message)]))
  | (Ok (Congratulations n), g) =>
      (Ok tt, mkWindow g (input_entry w) (feedback_label w) (guesses_list w)
                       (shown w ++ [showerror "Invalid Input" (congratulations_message n)]))
  | (Ok (Progress bulls cows mutual_information entropy), g) =>
      let line := (guess, (bulls, cows, mutual_information, entropy)) in
      (Ok tt, mkWindow g (input_entry w)
                       (Some (bulls, cows, mutual_information, entropy))
                       (guesses_list w ++ [line])
                       (if bulls =? 4
                        then shown w ++ [showinfo "Congratulations!" (info_message (attempts g))]
                        else shown w))
  end.

(** The callback of the Reset button; [s] is the engine's new draw. *)
Definition reset_game (w : window) (s : code) : window :=
  mkWindow (reset_game (game_of w) s) [] None [] (shown w).

(** What the player does: types a text in the entry and presses Submit,
    or presses Reset. *)
Inductive action : Type :=
| Submit (text : Py.str)
| Reset (s : code).

Definition type_text (w : window) (text : Py.str) : window :=
  mkWindow (game_of w) text (feedback_label w) (guesses_list w) (shown w).

Definition step (w : window) (a : action) : window :=
  match a with
  | Submit text => snd (process_guess (type_text w text))
  | Reset s => reset_game w s
  end.

Definition run (s : code) (actions : list action) : window :=
  fold_left step actions (init s).

Definition is_showinfo (d : dialog) : bool :=
  match d with
  | showinfo _ _ => true
  | showerror _ _ => false
  end.

End UI.

(** ** Facts about the builtins *)

Lemma len_nonneg {A : Type} (l : list A) : 0 <= Py.len l.
Proof. unfold Py.len. lia. Qed.

Lemma mem_In (x : Z) (l : list Z) : Py.mem x l = true <-> In x l.
Proof.
  unfold Py.mem. rewrite existsb_exists. split.
  - intros [y [Hy Heq]]. apply Z.eqb_eq in Heq. now subst.
  - intros H. exists x. split; [assumption | apply Z.eqb_refl].
Qed.

Lemma code_eqb_eq (a b : code) : code_eqb a b = true <-> a = b.
Proof.
  revert b. induction a as [| x a IH]; intros [| y b]; cbn [code_eqb];
    try (split; congruence).
  rewrite andb_true_iff, Z.eqb_eq, IH. split.
  - intros [-> ->]. reflexivity.
  - intros H. injection H. auto.
Qed.

Lemma In_code (c : code) (l : list code) :
  In c l <-> existsb (code_eqb c) l = true.
Proof.
  rewrite existsb_exists. split.
  - intros H. exists c. split; [assumption | now apply code_eqb_eq].
  - intros [y [Hy Heq]]. apply code_eqb_eq in Heq. now subst.
Qed.

Lemma feedback_eqb_eq (x y : Z * Z) : feedback_eqb x y = true <-> x = y.
Proof.
  destruct x as [a b], y as [c d]. unfold feedback_eqb. simpl.
  rewrite andb_true_iff, !Z.eqb_eq. split.
  - intros [-> ->]. reflexivity.
  - intros H. injection H. auto.
Qed.

(** ** The constructor *)

Lemma generate_possible_guesses_universe : generate_possible_guesses = Ok universe.
Proof. vm_compute. reflexivity. Qed.

Lemma init_new_game (s : code) : init s = Ok (new_game s).
Proof. unfold init. rewrite generate_possible_guesses_universe. reflexivity. Qed.

(** ** What [process_guess] leaves alone *)

Lemma process_guess_cases (self : game) (raw : Py.str) :
  (passes_validation raw = false /\ process_guess self raw = (Ok InvalidInput, self))
  \/ (passes_validation raw = true /\ Py.map_int raw = None
      /\ process_guess self raw = (Raise ValueError, self))
  \/ (exists guess, passes_validation raw = true /\ Py.map_int raw = Some guess
      /\ snd (process_guess self raw) =
         update_valid_guesses (with_attempts self (attempts self + 1)) guess
           (fst (bulls_and_cows (secret self) guess))
           (snd (bulls_and_cows (secret self) guess))).
Proof.
  unfold process_guess, passes_validation.
  destruct (negb (Py.len raw =? 4) || negb (Py.isdigit raw)
            || negb (Py.len (Py.set raw) =? 4)).
  - left. split; reflexivity.
  - right. destruct (Py.map_int raw) as [guess |].
    + right. exists guess. split; [reflexivity | split; [reflexivity |]].
      unfold calculate_bulls_and_cows. cbn [secret with_attempts].
      destruct (bulls_and_cows (secret self) guess) as [bulls cows].
      cbn [fst snd]. destruct (bulls =? 4); reflexivity.
    + left. split; [reflexivity | split; reflexivity].
Qed.

Lemma submit_secret (self : game) (raw : Py.str) :
  secret (submit self raw) = secret self.
Proof.
  unfold submit.
  destruct (process_guess_cases self raw) as [[_ H] | [[_ [_ H]] | [guess [_ [_ H]]]]];
    rewrite H; reflexivity.
Qed.

Lemma submit_all_possible_guesses (self : game) (raw : Py.str) :
  all_possible_guesses (submit self raw) = all_possible_guesses self.
Proof.
  unfold submit.
  destruct (process_guess_cases self raw) as [[_ H] | [[_ [_ H]] | [guess [_ [_ H]]]]];
    rewrite H; reflexivity.
Qed.

Lemma submit_previous_guesses (self : game) (raw : Py.str) :
  previous_guesses (submit self raw) = previous_guesses self.
Proof.
  unfold submit.
  destruct (process_guess_cases self raw) as [[_ H] | [[_ [_ H]] | [guess [_ [_ H]]]]];
    rewrite H; reflexivity.
Qed.

Lemma reachable_all_possible_guesses (g : game) :
  reachable g -> all_possible_guesses g = universe.
Proof.
  induction 1 as [s g _ Hinit | g raw _ IH | g s _ IH _].
  - rewrite init_new_game in Hinit. injection Hinit as <-. reflexivity.
  - rewrite submit_all_possible_guesses. exact IH.
  - exact IH.
Qed.

Lemma reachable_new_game (s : code) : is_sample s -> reachable (new_game s).
Proof. intros H. apply (reach_init s); [exact H | apply init_new_game]. Qed.

Lemma is_sample_1234 : is_sample [1; 2; 3; 4].
Proof.
  unfold is_sample. split; [reflexivity | split].
  - repeat constructor; simpl; intuition lia.
  - repeat constructor; lia.
Qed.

(** ** The candidate universe *)

(** C3. The list [generate_possible_guesses] builds has 4536 codes, not
    5040: the comprehension tests [str(i)], which has fewer than four
    characters below 1000, so no code with a leading zero is produced
    ([0123] is absent) although the codes are built with [zfill(4)]; the
    entropy of a fresh engine is [round(log2 4536, 2) = 12.15]. *)
Theorem generate_possible_guesses_misses_leading_zero :
  exists u, generate_possible_guesses = Ok u
    /\ Py.len u = 4536
    /\ ~ In [0; 1; 2; 3] u
    /\ possible_guess 123 = Ok []
    /\ Py.len (valid_guesses (new_game [1; 2; 3; 4])) = 4536
    /\ calculate_entropy (new_game [1; 2; 3; 4]) = 1215
    /\ Py.len (valid_guesses (reset_game (new_game [1; 2; 3; 4]) [5; 6; 7; 8])) = 4536
    /\ calculate_entropy (reset_game (new_game [1; 2; 3; 4]) [5; 6; 7; 8]) = 1215.
Proof.
  exists universe. split; [apply generate_possible_guesses_universe |].
  split; [vm_compute; reflexivity |].
  split.
  { intros H. pose proof (proj1 (In_code _ _) H) as Hb.
    vm_compute in Hb. discriminate. }
  split; [vm_compute; reflexivity |].
  split; [vm_compute; reflexivity |].
  split; [vm_compute; reflexivity |].
  split; vm_compute; reflexivity.
Qed.

(** ** Filtering *)

(** C1. With secret [1234], after the validated guess ["5678"] (feedback
    0 bulls, 0 cows) the secret is no longer in [valid_guesses]: the
    filter keeps the candidates scoring (0, 0) against the secret, and the
    secret scores (4, 0) against itself. *)
Theorem secret_filtered_out :
  let g := new_game [1; 2; 3; 4] in
  let raw := Py.of_string "5678" in
  fst (process_guess g raw) = Ok (Progress 0 0 392 823)
  /\ bulls_and_cows (secret g) (secret g) = (4, 0)
  /\ ~ In (secret (submit g raw)) (valid_guesses (submit g raw)).
Proof.
  cbv zeta. split; [vm_compute; reflexivity |].
  split; [vm_compute; reflexivity |].
  intros H. pose proof (proj1 (In_code _ _) H) as Hb.
  vm_compute in Hb. discriminate.
Qed.

(** C2. With secret [1234] and guess ["5678"] the list the filter leaves
    is not the list of universe codes [c] with
    [bulls_and_cows [5678] c = (0, 0)]: it contains the guess [5678]
    itself, which scores (4, 0) against the guess.  The candidates are
    scored against [self.secret]; the parameter [guess] of
    [update_valid_guesses] is not used. *)
Theorem filter_scores_against_secret :
  let g := new_game [1; 2; 3; 4] in
  let raw := Py.of_string "5678" in
  let guess := [5; 6; 7; 8] in
  Py.map_int raw = Some guess
  /\ bulls_and_cows (secret g) guess = (0, 0)
  /\ In guess (valid_guesses (submit g raw))
  /\ ~ In guess (filter (fun c => feedback_eqb (bulls_and_cows guess c) (0, 0))
                        (all_possible_guesses g))
  /\ valid_guesses (submit g raw) <>
     filter (fun c => feedback_eqb (bulls_and_cows guess c) (0, 0))
            (all_possible_guesses g).
Proof.
  cbv zeta.
  assert (Hin : In [5; 6; 7; 8]
                   (valid_guesses (submit (new_game [1; 2; 3; 4]) (Py.of_string "5678")))).
  { refine (proj2 (In_code _ _) _). vm_compute. reflexivity. }
  assert (Hout : ~ In [5; 6; 7; 8]
                     (filter (fun c => feedback_eqb (bulls_and_cows [5; 6; 7; 8] c) (0, 0))
                             (all_possible_guesses (new_game [1; 2; 3; 4])))).
  { intros H. apply filter_In in H. destruct H as [_ H].
    vm_compute in H. discriminate. }
  split; [vm_compute; reflexivity |].
  split; [vm_compute; reflexivity |].
  split; [exact Hin |].
  split; [exact Hout |].
  intros Heq. apply Hout. rewrite <- Heq. exact Hin.
Qed.

(** C4. With secret [1234], the guess ["1243"] leaves 6 candidates and the
    next guess ["5678"] leaves 300: the list grows again, because every
    guess filters [all_possible_guesses] afresh. *)
Theorem candidate_set_regrows :
  let s := [1; 2; 3; 4] in
  Py.len (valid_guesses (session s [Py.of_string "1243"])) = 6
  /\ Py.len (valid_guesses (session s [Py.of_string "1243"; Py.of_string "5678"])) = 300.
Proof. cbv zeta. split; vm_compute; reflexivity. Qed.

(** C5. In the state reached with secret [1234] after the guess ["1243"],
    the guess ["5678"] is processed with a mutual information of [-5.65]
    ([2.58 - 8.23]). *)
Theorem mutual_information_negative :
  let g := session [1; 2; 3; 4] [Py.of_string "1243"] in
  reachable g
  /\ fst (process_guess g (Py.of_string "5678")) = Ok (Progress 0 0 (-565) 823).
Proof.
  cbv zeta. split.
  - unfold session. cbn [fold_left]. apply reach_guess.
    apply reachable_new_game, is_sample_1234.
  - vm_compute. reflexivity.
Qed.

(** ** Failure paths *)

(** C7. The string ["123²"] (its last character is U+00B2, superscript
    two) passes the validation, since [isdigit] holds of it, and then
    [int] raises [ValueError] on it, in every state of the engine. *)
Theorem process_guess_raises_ValueError (self : game) :
  let raw := [49; 50; 51; 178] in
  passes_validation raw = true
  /\ process_guess self raw = (Raise ValueError, self).
Proof. cbv zeta. split; reflexivity. Qed.

(** ** History *)

(** C9. [process_guess] never touches [previous_guesses]: whatever is
    submitted in a session, the history stays empty; after the validated
    guess ["5678"] its length is 0. *)
Theorem previous_guesses_stays_empty (s : code) (raws : list Py.str) :
  previous_guesses (session s raws) = []
  /\ fst (process_guess (new_game [1; 2; 3; 4]) (Py.of_string "5678"))
     = Ok (Progress 0 0 392 823)
  /\ Py.len (previous_guesses (session [1; 2; 3; 4] [Py.of_string "5678"])) = 0.
Proof.
  assert (Hall : forall raws' g, previous_guesses (fold_left submit raws' g)
                                 = previous_guesses g).
  { induction raws' as [| raw raws' IH]; intros g; [reflexivity |].
    cbn [fold_left]. rewrite IH. apply submit_previous_guesses. }
  split; [| split].
  - unfold session. rewrite Hall. reflexivity.
  - vm_compute. reflexivity.
  - unfold session. rewrite Hall. reflexivity.
Qed.

(** ** Validation *)

Lemma invalid_input_leaves_state (self : game) (raw : Py.str) :
  passes_validation raw = false ->
  process_guess self raw = (Ok InvalidInput, self).
Proof.
  intros Hv.
  destruct (process_guess_cases self raw) as [[_ H] | [[Hp _] | [guess [Hp _]]]];
    [exact H | congruence | congruence].
Qed.

Lemma in_ranges_Exists (c : Z) (rs : list (Z * Z)) :
  Py.in_ranges c rs = true <-> Exists (fun r => fst r <= c <= snd r) rs.
Proof.
  unfold Py.in_ranges. rewrite existsb_exists, Exists_exists.
  split; intros [r [Hin Hr]]; exists r; (split; [exact Hin |]);
    unfold Py.in_range in *; rewrite andb_true_iff, !Z.leb_le in *; exact Hr.
Qed.

Lemma in_ranges_above (c bound : Z) (rs : list (Z * Z)) :
  c < bound -> Forall (fun r => bound <= fst r) rs -> Py.in_ranges c rs = false.
Proof.
  intros Hc Hall. destruct (Py.in_ranges c rs) eqn:E; [| reflexivity].
  apply in_ranges_Exists in E. apply Exists_exists in E.
  destruct E as [r [Hin Hr]]. rewrite Forall_forall in Hall.
  specialize (Hall r Hin). lia.
Qed.

(** Below U+0080 the digits of [isdigit] are the ten characters ['0'..'9']. *)
Lemma isdigit_char_ascii (c : Z) :
  c < 128 -> Py.isdigit_char c = true <-> 48 <= c <= 57.
Proof.
  intros Hc. unfold Py.isdigit_char.
  rewrite (in_ranges_above c 128 Py.digit_only_ranges Hc)
    by (unfold Py.digit_only_ranges; repeat constructor; cbn [fst]; lia).
  rewrite orb_false_r. unfold Py.decimal_ranges.
  change (Py.in_ranges c ((48, 57) :: ?tl))
    with (Py.in_range c (48, 57) || Py.in_ranges c tl).
  match goal with
  | |- context [Py.in_ranges c ?tl] =>
      rewrite (in_ranges_above c 128 tl Hc) by (repeat constructor; cbn [fst]; lia)
  end.
  rewrite orb_false_r. unfold Py.in_range. cbn [fst snd].
  rewrite andb_true_iff, !Z.leb_le. reflexivity.
Qed.

Lemma nodup_length_le (l : list Z) :
  (length (nodup Z.eq_dec l) <= length l)%nat.
Proof.
  induction l as [| x l IH]; [apply le_n |].
  cbn [nodup]. destruct (in_dec Z.eq_dec x l); cbn [length]; lia.
Qed.

Lemma nodup_length_NoDup (l : list Z) :
  length (nodup Z.eq_dec l) = length l <-> NoDup l.
Proof.
  split.
  - induction l as [| x l IH]; intros H; [constructor |].
    cbn [nodup] in H. destruct (in_dec Z.eq_dec x l) as [Hin | Hnin].
    + pose proof (nodup_length_le l). cbn [length] in H. lia.
    + cbn [length] in H. constructor; [exact Hnin | apply IH; lia].
  - intros H. now rewrite (nodup_fixed_point Z.eq_dec H).
Qed.

(** On strings of characters below U+0080 the validation is the one the
    error message describes: four characters, each of ['0'..'9'], no
    character twice. *)
Lemma passes_validation_ascii (raw : Py.str) :
  Forall (fun c => c < 128) raw ->
  passes_validation raw = true <->
  length raw = 4%nat /\ Forall (fun c => 48 <= c <= 57) raw /\ NoDup raw.
Proof.
  unfold Py.str, Py.char in *. intros Hascii. unfold passes_validation.
  rewrite negb_true_iff, !orb_false_iff, !negb_false_iff, !Z.eqb_eq.
  unfold Py.len, Py.set. unfold Py.char in *.
  assert (Hdig : length raw = 4%nat ->
                 (Py.isdigit raw = true <-> Forall (fun c => 48 <= c <= 57) raw)).
  { intros Hlen. unfold Py.isdigit. destruct raw as [| c raw']; [discriminate |].
    rewrite forallb_forall, Forall_forall. rewrite Forall_forall in Hascii.
    split; intros H x Hx; apply (isdigit_char_ascii x (Hascii x Hx)); auto. }
  split.
  - intros [[Hlen Hd] Hset].
    assert (Hlen' : length raw = 4%nat) by lia.
    split; [exact Hlen' | split; [now apply Hdig |]].
    apply nodup_length_NoDup. lia.
  - intros [Hlen [Hd Hnd]].
    split; [split; [lia | now apply Hdig] |].
    apply nodup_length_NoDup in Hnd. lia.
Qed.

(** The universe is the set of codes of four pairwise distinct digits
    whose first digit is not 0. *)
Lemma In_digits (d : Z) : 0 <= d <= 9 -> In d digits.
Proof.
  intros H. unfold digits.
  assert (d = 0 \/ d = 1 \/ d = 2 \/ d = 3 \/ d = 4 \/ d = 5 \/ d = 6
          \/ d = 7 \/ d = 8 \/ d = 9) as Hd by lia.
  cbn [In]. intuition auto.
Qed.

Lemma In_quadruples (a b c d : Z) :
  0 <= a <= 9 -> 0 <= b <= 9 -> 0 <= c <= 9 -> 0 <= d <= 9 ->
  In [a; b; c; d] quadruples.
Proof.
  intros Ha Hb Hc Hd. unfold quadruples.
  apply in_flat_map. exists a. split; [now apply In_digits |].
  apply in_flat_map. exists b. split; [now apply In_digits |].
  apply in_flat_map. exists c. split; [now apply In_digits |].
  apply in_map_iff. exists d. split; [reflexivity | now apply In_digits].
Qed.

Lemma universe_quadruples :
  filter distinct_no_leading_zero quadruples = universe.
Proof. vm_compute. reflexivity. Qed.

Lemma universe_spec (c : code) :
  In c universe <->
  length c = 4%nat /\ NoDup c /\ Forall (fun d => 0 <= d <= 9) c /\ hd 0 c <> 0.
Proof.
  assert (Hb : distinct_no_leading_zero c = true <->
               length c = 4%nat /\ NoDup c /\ Forall (fun d => 0 <= d <= 9) c
               /\ hd 0 c <> 0).
  { unfold distinct_no_leading_zero, Py.len, Py.set.
    rewrite !andb_true_iff, negb_true_iff, !Z.eqb_eq, Z.eqb_neq.
    rewrite forallb_forall, Forall_forall.
    split.
    - intros [[[Hlen Hd] Hset] Hhd].
      split; [lia | split; [apply nodup_length_NoDup; lia | split; [| exact Hhd]]].
      intros x Hx. specialize (Hd x Hx).
      apply andb_true_iff in Hd. rewrite !Z.leb_le in Hd. exact Hd.
    - intros [Hlen [Hnd [Hd Hhd]]].
      apply nodup_length_NoDup in Hnd.
      split; [split; [split; [lia |] | lia] | exact Hhd].
      intros x Hx. specialize (Hd x Hx).
      apply andb_true_iff. rewrite !Z.leb_le. exact Hd. }
  rewrite <- Hb, <- universe_quadruples, filter_In. split.
  - intros [_ Hc]. exact Hc.
  - intros Hc. split; [| exact Hc].
    pose proof (proj1 Hb Hc) as [Hlen [_ [Hd _]]].
    destruct c as [| a [| b [| c' [| d [| ? ?]]]]]; try discriminate Hlen.
    inversion Hd as [| ? ? Ha Hd1]; subst.
    inversion Hd1 as [| ? ? Hb' Hd2]; subst.
    inversion Hd2 as [| ? ? Hc' Hd3]; subst.
    inversion Hd3 as [| ? ? Hd' _]; subst.
    now apply In_quadruples.
Qed.

(** C6. The string ["1１23"] (its second character is U+FF11, fullwidth
    digit one) consists of four distinct characters that [isdigit]
    accepts, so it passes the validation although its digits 1, 1, 2, 3
    are not pairwise distinct; the guess is processed and counted. *)
Theorem validation_accepts_repeated_digit :
  let g := new_game [1; 2; 3; 4] in
  let raw := [49; 65297; 50; 51] in
  passes_validation raw = true
  /\ Py.map_int raw = Some [1; 1; 2; 3]
  /\ ~ NoDup [1; 1; 2; 3]
  /\ fst (process_guess g raw) = Ok (Progress 1 2 446 769)
  /\ attempts (submit g raw) = 1.
Proof.
  cbv zeta. split; [reflexivity | split; [reflexivity | split]].
  - intros H. inversion H as [| x l Hnin _]. apply Hnin. left. reflexivity.
  - split; vm_compute; reflexivity.
Qed.

(** ** Entropy and mutual information *)

(** [round2_log2 n] is [log2 n] rounded to the nearest hundredth. *)
Lemma round2_log2_nearest (n : Z) :
  0 < n -> is_round2_log2_diff n 1 (round2_log2 n) = true.
Proof.
  intros Hn. unfold is_round2_log2_diff, pow2_le_ratio200, round2_log2.
  assert (HN : 0 < n ^ 200) by (apply Z.pow_pos_nonneg; lia).
  remember (n ^ 200) as N eqn:EN. clear EN.
  pose proof (Z.log2_spec N HN) as [Hlo Hhi].
  pose proof (Z.log2_nonneg N) as Hm.
  remember (Z.log2 N) as m eqn:Em. clear Em.
  remember ((m + 1) / 2) as k eqn:Ek.
  assert (Hk : 2 * k <= m + 1 <= 2 * k + 1).
  { pose proof (Z.div_mod (m + 1) 2 ltac:(lia)) as Hdm.
    pose proof (Z.mod_pos_bound (m + 1) 2 ltac:(lia)) as Hmb.
    rewrite <- Ek in Hdm. lia. }
  clear Ek. rewrite Z.pow_1_l by lia. rewrite !Z.mul_1_r.
  apply andb_true_iff. split.
  - apply Z.leb_le. destruct (Z.eq_dec k 0) as [-> | Hk0].
    + change (2 ^ Z.max (2 * 0 - 1) 0) with 1.
      change (2 ^ Z.max (- (2 * 0 - 1)) 0) with 2. lia.
    + rewrite (Z.max_l (2 * k - 1) 0) by lia.
      rewrite (Z.max_r (- (2 * k - 1)) 0) by lia.
      change (2 ^ 0) with 1. rewrite Z.mul_1_l.
      apply Z.le_trans with (2 ^ m); [| exact Hlo].
      apply Z.pow_le_mono_r; lia.
  - apply negb_true_iff, Z.leb_gt.
    rewrite (Z.max_l (2 * k + 1) 0) by lia.
    rewrite (Z.max_r (- (2 * k + 1)) 0) by lia.
    change (2 ^ 0) with 1. rewrite Z.mul_1_l.
    apply Z.lt_le_trans with (2 ^ Z.succ m); [exact Hhi |].
    apply Z.pow_le_mono_r; lia.
Qed.

Lemma calculate_entropy_size (self : game) :
  calculate_entropy self = entropy_of_size (Py.len (valid_guesses self)).
Proof. reflexivity. Qed.

(** The tuple a processed guess returns, in terms of the states before and
    after the call. *)
Lemma process_guess_progress (self : game) (raw : Py.str) (b c mi e : Z) :
  fst (process_guess self raw) = Ok (Progress b c mi e) ->
  mi = calculate_entropy self - calculate_entropy (submit self raw)
  /\ e = calculate_entropy (submit self raw).
Proof.
  unfold submit, process_guess.
  destruct (negb (Py.len raw =? 4) || negb (Py.isdigit raw)
            || negb (Py.len (Py.set raw) =? 4)); [discriminate |].
  destruct (Py.map_int raw) as [guess |]; [| discriminate].
  destruct (calculate_bulls_and_cows _ guess) as [bulls cows].
  destruct (bulls =? 4); cbn [fst snd]; [discriminate |].
  intros H. injection H as _ _ <- <-.
  unfold calculate_mutual_information. split; reflexivity.
Qed.

(** C8, as the claim states it, fails: with secret [1234] the first guess
    ["2156"] narrows 4536 candidates to 1155 and is reported with a mutual
    information of 1.98 ([12.15 - 10.17]), while
    [log2 4536 - log2 1155 = 1.9735...] rounds to 1.97. *)
Lemma mutual_information_not_full_precision :
  let g := new_game [1; 2; 3; 4] in
  let raw := Py.of_string "2156" in
  fst (process_guess g raw) = Ok (Progress 0 2 198 1017)
  /\ Py.len (valid_guesses g) = 4536
  /\ Py.len (valid_guesses (submit g raw)) = 1155
  /\ is_round2_log2_diff 4536 1155 198 = false
  /\ is_round2_log2_diff 4536 1155 197 = true.
Proof.
  cbv zeta.
  split; [vm_compute; reflexivity |].
  split; [vm_compute; reflexivity |].
  split; [vm_compute; reflexivity |].
  split; vm_compute; reflexivity.
Qed.

(** C8, amended. The mutual information a processed guess returns is the
    difference of the two entropies [calculate_entropy] reports before and
    after the filtering step, each of them the [log2] of the size of the
    candidate list already rounded to two decimals (0 for an empty list);
    the returned entropy is the second of them. *)
Theorem mutual_information_of_rounded_entropies
    (self : game) (raw : Py.str) (b c mi e : Z) :
  fst (process_guess self raw) = Ok (Progress b c mi e) ->
  let n_prev := Py.len (valid_guesses self) in
  let n_cur := Py.len (valid_guesses (submit self raw)) in
  mi = entropy_of_size n_prev - entropy_of_size n_cur
  /\ e = entropy_of_size n_cur
  /\ (0 < n_prev -> is_round2_log2_diff n_prev 1 (entropy_of_size n_prev) = true)
  /\ (0 < n_cur -> is_round2_log2_diff n_cur 1 (entropy_of_size n_cur) = true)
  /\ (n_prev = 0 -> entropy_of_size n_prev = 0)
  /\ (n_cur = 0 -> entropy_of_size n_cur = 0).
Proof.
  intros H. cbv zeta. apply process_guess_progress in H.
  rewrite !calculate_entropy_size in H. destruct H as [Hmi He].
  assert (Hr : forall n, 0 < n -> is_round2_log2_diff n 1 (entropy_of_size n) = true).
  { intros n Hn. unfold entropy_of_size.
    destruct (Z.gtb_spec n 0); [now apply round2_log2_nearest | lia]. }
  assert (Hz : forall n, n = 0 -> entropy_of_size n = 0).
  { intros n ->. reflexivity. }
  repeat split; auto.
Qed.

Lemma mutual_information_of_rounded_entropies_witness :
  let g := new_game [1; 2; 3; 4] in
  let raw := Py.of_string "2156" in
  fst (process_guess g raw) = Ok (Progress 0 2 198 1017)
  /\ 198 = entropy_of_size (Py.len (valid_guesses g))
           - entropy_of_size (Py.len (valid_guesses (submit g raw)))
  /\ 1017 = entropy_of_size (Py.len (valid_guesses (submit g raw))).
Proof.
  cbv zeta.
  assert (H : fst (process_guess (new_game [1; 2; 3; 4]) (Py.of_string "2156"))
              = Ok (Progress 0 2 198 1017)) by (vm_compute; reflexivity).
  split; [exact H |].
  pose proof (mutual_information_of_rounded_entropies _ _ _ _ _ _ H) as W.
  cbv zeta in W. destruct W as [Hmi [He _]].
  split; [exact Hmi | exact He].
Defined.

(** ** The candidate list after a guess *)

Lemma submit_valid_guesses (self : game) (raw : Py.str) (guess : code) :
  passes_validation raw = true ->
  Py.map_int raw = Some guess ->
  valid_guesses (submit self raw) =
  filter (fun c => feedback_eqb (bulls_and_cows (secret self) c)
                                (bulls_and_cows (secret self) guess))
         (all_possible_guesses self).
Proof.
  intros Hv Hg. unfold submit.
  destruct (process_guess_cases self raw)
    as [[Hp _] | [[_ [Hm _]] | [guess' [_ [Hm H]]]]]; [congruence | congruence |].
  rewrite H. assert (guess' = guess) as -> by congruence.
  unfold update_valid_guesses, calculate_bulls_and_cows.
  cbn [valid_guesses secret all_possible_guesses with_attempts].
  rewrite <- surjective_pairing. reflexivity.
Qed.

(** The candidate list never exceeds the universe. *)
Lemma valid_guesses_bounded (g : game) :
  reachable g -> Py.len (valid_guesses g) <= Py.len universe.
Proof.
  induction 1 as [s g _ Hinit | g raw R IH | g s R IH _].
  - rewrite init_new_game in Hinit. injection Hinit as <-. cbn [valid_guesses new_game]. lia.
  - destruct (process_guess_cases g raw) as [[_ H] | [[_ [_ H]] | [guess [Hv [Hg _]]]]].
    + unfold submit. rewrite H. exact IH.
    + unfold submit. rewrite H. exact IH.
    + rewrite (submit_valid_guesses g raw guess Hv Hg).
      rewrite (reachable_all_possible_guesses g R).
      unfold Py.len. apply inj_le, filter_length_le.
  - cbn [valid_guesses reset_game]. rewrite (reachable_all_possible_guesses g R). lia.
Qed.

(** The secret survives a validated guess exactly when it is in the
    universe and the guess scores what the secret scores against itself. *)
Lemma secret_survives_iff (g : game) (raw : Py.str) (guess : code) :
  reachable g -> passes_validation raw = true -> Py.map_int raw = Some guess ->
  In (secret g) (valid_guesses (submit g raw)) <->
  In (secret g) universe
  /\ bulls_and_cows (secret g) guess = bulls_and_cows (secret g) (secret g).
Proof.
  intros R Hv Hg. rewrite (submit_valid_guesses g raw guess Hv Hg).
  rewrite (reachable_all_possible_guesses g R), filter_In, feedback_eqb_eq.
  split; intros [H1 H2]; split; auto.
Qed.

(** C10. After a validated guess the candidate list is the list of
    universe codes whose score against the secret equals the score of the
    guess against the secret; it depends on the secret and on this guess
    only, so two engine states with the same secret, whatever was
    submitted to them before, hold the same candidate list after the same
    guess. *)
Theorem candidate_set_depends_on_last_guess_only
    (g1 g2 : game) (raw : Py.str) (guess : code) :
  reachable g1 -> reachable g2 -> secret g1 = secret g2 ->
  passes_validation raw = true -> Py.map_int raw = Some guess ->
  valid_guesses (submit g1 raw) =
    filter (fun c => feedback_eqb (bulls_and_cows (secret g1) c)
                                  (bulls_and_cows (secret g1) guess))
           universe
  /\ valid_guesses (submit g2 raw) = valid_guesses (submit g1 raw).
Proof.
  intros R1 R2 Hs Hv Hg.
  rewrite (submit_valid_guesses g1 raw guess Hv Hg).
  rewrite (submit_valid_guesses g2 raw guess Hv Hg).
  rewrite (reachable_all_possible_guesses g1 R1).
  rewrite (reachable_all_possible_guesses g2 R2).
  rewrite <- Hs. split; reflexivity.
Qed.

Lemma candidate_set_depends_on_last_guess_only_witness :
  let g1 := new_game [1; 2; 3; 4] in
  let g2 := submit g1 (Py.of_string "1243") in
  let raw := Py.of_string "5678" in
  (reachable g1 /\ reachable g2 /\ secret g1 = secret g2
   /\ valid_guesses g1 <> valid_guesses g2)
  /\ valid_guesses (submit g1 raw) =
       filter (fun c => feedback_eqb (bulls_and_cows (secret g1) c)
                                     (bulls_and_cows (secret g1) [5; 6; 7; 8]))
              universe
  /\ valid_guesses (submit g2 raw) = valid_guesses (submit g1 raw).
Proof.
  cbv zeta.
  assert (R1 : reachable (new_game [1; 2; 3; 4]))
    by (apply reachable_new_game, is_sample_1234).
  assert (R2 : reachable (submit (new_game [1; 2; 3; 4]) (Py.of_string "1243")))
    by (apply reach_guess, R1).
  assert (Hs : secret (new_game [1; 2; 3; 4])
               = secret (submit (new_game [1; 2; 3; 4]) (Py.of_string "1243")))
    by (symmetry; apply submit_secret).
  split.
  - split; [exact R1 | split; [exact R2 | split; [exact Hs |]]].
    intros Heq. apply (f_equal (@length code)) in Heq.
    vm_compute in Heq. discriminate.
  - apply (candidate_set_depends_on_last_guess_only _ _ _ _ R1 R2 Hs);
      reflexivity.
Defined.

(** ** Scoring *)

Lemma count_bulls_cons (x y : Z) (s g : code) :
  count_bulls (x :: s) (y :: g) = (if x =? y then 1 else 0) + count_bulls s g.
Proof. reflexivity. Qed.

Lemma count_bulls_sym (s g : code) : count_bulls s g = count_bulls g s.
Proof.
  revert g. induction s as [| x s IH]; intros [| y g]; try reflexivity.
  rewrite !count_bulls_cons, IH, (Z.eqb_sym x y). reflexivity.
Qed.

Lemma count_bulls_range (s g : code) : 0 <= count_bulls s g <= Py.len s.
Proof.
  revert g. induction s as [| x s IH]; intros [| y g];
    try (unfold count_bulls, Py.len; cbn; lia).
  rewrite count_bulls_cons. specialize (IH g). unfold Py.len in *.
  cbn [length]. destruct (x =? y); lia.
Qed.

Lemma count_bulls_all (s g : code) :
  length s = length g -> (count_bulls s g = Py.len s <-> g = s).
Proof.
  revert g. induction s as [| x s IH]; intros [| y g] Hlen; try discriminate Hlen.
  - split; reflexivity.
  - injection Hlen as Hlen. rewrite count_bulls_cons.
    pose proof (count_bulls_range s g) as Hr. specialize (IH g Hlen).
    unfold Py.len in *. cbn [length]. rewrite Nat2Z.inj_succ.
    destruct (Z.eqb_spec x y) as [-> | Hne]; split.
    + intros H. f_equal. apply IH. lia.
    + intros H. injection H as ->. assert (count_bulls s s = Z.of_nat (length s)) by now apply IH.
      lia.
    + intros H. lia.
    + intros H. injection H as H1 _. congruence.
Qed.

Lemma set_and_In (x : Z) (a b : list Z) :
  In x (Py.set_and (Py.set a) (Py.set b)) <-> In x a /\ In x b.
Proof.
  unfold Py.set_and, Py.set. rewrite filter_In, mem_In, !nodup_In. reflexivity.
Qed.

Lemma set_and_NoDup (a b : list Z) : NoDup (Py.set_and (Py.set a) (Py.set b)).
Proof. unfold Py.set_and, Py.set. apply NoDup_filter, NoDup_nodup. Qed.

Lemma set_and_length_sym (a b : list Z) :
  length (Py.set_and (Py.set a) (Py.set b))
  = length (Py.set_and (Py.set b) (Py.set a)).
Proof.
  apply Nat.le_antisymm; apply NoDup_incl_length; try apply set_and_NoDup;
    intros x Hx; apply set_and_In; apply set_and_In in Hx; tauto.
Qed.

Lemma set_and_length_le (a b : list Z) :
  (length (Py.set_and (Py.set a) (Py.set b)) <= length a)%nat.
Proof.
  unfold Py.set_and, Py.set.
  apply Nat.le_trans with (length (nodup Z.eq_dec a));
    [apply filter_length_le | apply nodup_length_le].
Qed.

Lemma bull_digits_cons (x y : Z) (s g : code) :
  bull_digits (x :: s) (y :: g)
  = if x =? y then x :: bull_digits s g else bull_digits s g.
Proof.
  unfold bull_digits. cbn [combine filter fst snd]. destruct (x =? y); reflexivity.
Qed.

Lemma bull_digits_In (x : Z) (s g : code) :
  In x (bull_digits s g) -> In x s /\ In x g.
Proof.
  revert g. induction s as [| a s IH]; intros [| b g] H;
    try (unfold bull_digits in H; cbn in H; contradiction).
  rewrite bull_digits_cons in H. destruct (Z.eqb_spec a b) as [-> | Hne].
  - destruct H as [-> | H]; [split; left; reflexivity |].
    destruct (IH g H). split; right; assumption.
  - destruct (IH g H). split; right; assumption.
Qed.

Lemma bull_digits_NoDup (s g : code) : NoDup s -> NoDup (bull_digits s g).
Proof.
  revert g. induction s as [| a s IH]; intros [| b g] Hnd;
    try (unfold bull_digits; cbn; constructor).
  rewrite bull_digits_cons. inversion Hnd as [| ? ? Hnin Hnd']; subst.
  destruct (a =? b); [| now apply IH].
  constructor; [| now apply IH].
  intros Hin. apply bull_digits_In in Hin. tauto.
Qed.

Lemma count_bulls_bull_digits (s g : code) :
  count_bulls s g = Py.len (bull_digits s g).
Proof.
  revert g. induction s as [| a s IH]; intros [| b g]; try reflexivity.
  rewrite count_bulls_cons, bull_digits_cons, IH. unfold Py.len.
  destruct (a =? b); cbn [length]; lia.
Qed.

(** With a reference code of distinct digits, the bulls are among the
    digits the two codes share. *)
Lemma count_bulls_le_common (s g : code) :
  NoDup s -> count_bulls s g <= Py.len (Py.set_and (Py.set s) (Py.set g)).
Proof.
  intros Hnd. rewrite count_bulls_bull_digits. unfold Py.len.
  apply inj_le, NoDup_incl_length; [now apply bull_digits_NoDup |].
  intros x Hx. apply set_and_In. now apply bull_digits_In.
Qed.

Lemma bulls_and_cows_self (s : code) :
  NoDup s -> bulls_and_cows s s = (Py.len s, 0).
Proof.
  intros Hnd. unfold bulls_and_cows.
  assert (Hb : count_bulls s s = Py.len s) by now apply count_bulls_all.
  rewrite Hb. f_equal.
  assert (Hc : Py.set_and (Py.set s) (Py.set s) = s).
  { unfold Py.set_and, Py.set. rewrite (nodup_fixed_point Z.eq_dec Hnd).
    apply forallb_filter_id. apply forallb_forall. intros x Hx. now apply mem_In. }
  rewrite Hc. lia.
Qed.

(** X1. Scoring is symmetric: scoring [g] against the reference [s] gives
    the same bulls and cows as scoring [s] against the reference [g], for
    any two sequences (repeated digits and different lengths included). *)
Theorem bulls_and_cows_symmetric (s g : code) :
  bulls_and_cows s g = bulls_and_cows g s.
Proof.
  unfold bulls_and_cows, Py.len.
  rewrite (count_bulls_sym s g), (set_and_length_sym s g). reflexivity.
Qed.

Lemma bulls_and_cows_range (s guess : code) :
  length s = 4%nat -> NoDup s ->
  0 <= fst (bulls_and_cows s guess) <= 4
  /\ 0 <= snd (bulls_and_cows s guess) <= 4
  /\ fst (bulls_and_cows s guess) + snd (bulls_and_cows s guess) <= 4.
Proof.
  intros Hlen Hnd. unfold bulls_and_cows. cbn [fst snd].
  pose proof (count_bulls_range s guess) as Hr.
  pose proof (count_bulls_le_common s guess Hnd) as Hc.
  pose proof (set_and_length_le s guess) as Hs.
  unfold Py.len in *. lia.
Qed.

(** X2. Against a secret drawn by [sample(range(10), 4)] every guess, of
    any length and with or without repeated digits, scores between 0 and 4
    bulls, a non-negative number of cows, and at most 4 bulls and cows
    together. *)
Theorem calculate_bulls_and_cows_bounds (self : game) (guess : code) :
  is_sample (secret self) ->
  0 <= fst (calculate_bulls_and_cows self guess) <= 4
  /\ 0 <= snd (calculate_bulls_and_cows self guess) <= 4
  /\ fst (calculate_bulls_and_cows self guess)
     + snd (calculate_bulls_and_cows self guess) <= 4.
Proof.
  intros [Hlen [Hnd _]]. unfold calculate_bulls_and_cows.
  now apply bulls_and_cows_range.
Qed.

Lemma calculate_bulls_and_cows_bounds_witness :
  is_sample (secret (new_game [1; 2; 3; 4]))
  /\ 0 <= fst (calculate_bulls_and_cows (new_game [1; 2; 3; 4]) [1; 1; 4]) <= 4
  /\ 0 <= snd (calculate_bulls_and_cows (new_game [1; 2; 3; 4]) [1; 1; 4]) <= 4
  /\ fst (calculate_bulls_and_cows (new_game [1; 2; 3; 4]) [1; 1; 4])
     + snd (calculate_bulls_and_cows (new_game [1; 2; 3; 4]) [1; 1; 4]) <= 4.
Proof.
  split; [exact is_sample_1234 |].
  apply (calculate_bulls_and_cows_bounds (new_game [1; 2; 3; 4]) [1; 1; 4]).
  exact is_sample_1234.
Defined.

(** ** What a processed guess returns and changes *)

Lemma map_int_length (raw : Py.str) (guess : code) :
  Py.map_int raw = Some guess -> length guess = length raw.
Proof.
  revert guess. induction raw as [| c raw IH]; intros guess H; cbn [Py.map_int] in H.
  - injection H as <-. reflexivity.
  - destruct (Py.int_char c); [| discriminate].
    destruct (Py.map_int raw) as [ds |]; [| discriminate].
    injection H as <-. cbn [length]. f_equal. now apply IH.
Qed.

Lemma passes_validation_length (raw : Py.str) :
  passes_validation raw = true -> length raw = 4%nat.
Proof.
  unfold passes_validation, Py.len.
  rewrite negb_true_iff, !orb_false_iff, !negb_false_iff, Z.eqb_eq. lia.
Qed.

Lemma process_guess_accepted (self : game) (raw : Py.str) (guess : code) :
  passes_validation raw = true -> Py.map_int raw = Some guess ->
  fst (process_guess self raw) =
  if fst (bulls_and_cows (secret self) guess) =? 4
  then Ok (Congratulations (attempts self + 1))
  else Ok (Progress (fst (bulls_and_cows (secret self) guess))
                    (snd (bulls_and_cows (secret self) guess))
                    (calculate_entropy self - calculate_entropy (submit self raw))
                    (calculate_entropy (submit self raw))).
Proof.
  intros Hv Hg. unfold submit, process_guess. unfold passes_validation in Hv.
  apply negb_true_iff in Hv. rewrite Hv, Hg.
  unfold calculate_bulls_and_cows. cbn [secret with_attempts].
  destruct (bulls_and_cows (secret self) guess) as [bulls cows]. cbn [fst snd].
  destruct (bulls =? 4); reflexivity.
Qed.

Lemma accepted_inv (raw : Py.str) :
  accepted raw = true ->
  passes_validation raw = true /\ exists guess, Py.map_int raw = Some guess.
Proof.
  unfold accepted. rewrite andb_true_iff. intros [Hv Hm].
  split; [exact Hv |]. destruct (Py.map_int raw) as [guess |]; [| discriminate].
  now exists guess.
Qed.

Lemma not_accepted_submit (self : game) (raw : Py.str) :
  accepted raw = false ->
  process_guess self raw = (Ok InvalidInput, self)
  \/ process_guess self raw = (Raise ValueError, self).
Proof.
  intros Ha.
  destruct (process_guess_cases self raw)
    as [[_ H] | [[_ [_ H]] | [guess [Hv [Hg _]]]]]; [now left | now right |].
  unfold accepted in Ha. rewrite Hv, Hg in Ha. discriminate.
Qed.

Lemma submit_attempts (self : game) (raw : Py.str) :
  attempts (submit self raw) = attempts self + (if accepted raw then 1 else 0).
Proof.
  destruct (accepted raw) eqn:Ha.
  - destruct (accepted_inv raw Ha) as [Hv [guess Hg]]. unfold submit.
    destruct (process_guess_cases self raw)
      as [[Hp _] | [[_ [Hm _]] | [guess' [_ [_ H]]]]]; [congruence | congruence |].
    rewrite H. reflexivity.
  - unfold submit. destruct (not_accepted_submit self raw Ha) as [H | H];
      rewrite H; cbn [snd]; lia.
Qed.

Lemma reachable_is_sample (g : game) : reachable g -> is_sample (secret g).
Proof.
  induction 1 as [s g Hs Hinit | g raw _ IH | g s _ _ Hs].
  - rewrite init_new_game in Hinit. injection Hinit as <-. exact Hs.
  - rewrite submit_secret. exact IH.
  - exact Hs.
Qed.

Lemma reachable_attempts_nonneg (g : game) : reachable g -> 0 <= attempts g.
Proof.
  induction 1 as [s g _ Hinit | g raw _ IH | g s _ _ _].
  - rewrite init_new_game in Hinit. injection Hinit as <-. cbn. lia.
  - rewrite submit_attempts. destruct (accepted raw); lia.
  - cbn. lia.
Qed.

(** X3. In every reachable state [process_guess] returns the
    congratulation exactly when the submitted string passes the validation
    and converts to the secret itself; the number it reports is the
    attempt counter after the increment. *)
Theorem process_guess_wins_iff_secret (g : game) (raw : Py.str) (n : Z) :
  reachable g ->
  fst (process_guess g raw) = Ok (Congratulations n) <->
  passes_validation raw = true /\ Py.map_int raw = Some (secret g)
  /\ n = attempts g + 1.
Proof.
  intros R. destruct (reachable_is_sample g R) as [Hlen [Hnd _]]. split.
  - intros H.
    destruct (process_guess_cases g raw)
      as [[_ Hp] | [[_ [_ Hp]] | [guess [Hv [Hg _]]]]];
      [rewrite Hp in H; discriminate | rewrite Hp in H; discriminate |].
    rewrite (process_guess_accepted g raw guess Hv Hg) in H.
    destruct (Z.eqb_spec (fst (bulls_and_cows (secret g) guess)) 4) as [H4 | H4];
      [| discriminate].
    injection H as <-. split; [exact Hv | split; [| reflexivity]].
    rewrite Hg. apply f_equal.
    apply (count_bulls_all (secret g) guess).
    + rewrite (map_int_length raw guess Hg), (passes_validation_length raw Hv).
      exact Hlen.
    + unfold bulls_and_cows in H4. cbn [fst] in H4. unfold Py.len. lia.
  - intros [Hv [Hg ->]].
    rewrite (process_guess_accepted g raw (secret g) Hv Hg).
    rewrite (bulls_and_cows_self (secret g) Hnd). cbn [fst]. unfold Py.len.
    rewrite Hlen. reflexivity.
Qed.

Lemma process_guess_wins_iff_secret_witness :
  reachable (new_game [1; 2; 3; 4])
  /\ (fst (process_guess (new_game [1; 2; 3; 4]) (Py.of_string "1234"))
      = Ok (Congratulations 1) <->
      passes_validation (Py.of_string "1234") = true
      /\ Py.map_int (Py.of_string "1234") = Some (secret (new_game [1; 2; 3; 4]))
      /\ 1 = attempts (new_game [1; 2; 3; 4]) + 1).
Proof.
  assert (R : reachable (new_game [1; 2; 3; 4]))
    by (apply reachable_new_game, is_sample_1234).
  split; [exact R |].
  exact (process_guess_wins_iff_secret _ (Py.of_string "1234") 1 R).
Defined.

(** X4. The attempt counter counts the accepted submissions: a submission
    that is rejected by the validation, or on which [int] raises, leaves
    it alone, every processed guess (winning or not) adds one; after a
    session it is the number of accepted strings. *)
Theorem attempts_counts_accepted (s : code) (raws : list Py.str) :
  attempts (session s raws) = Py.len (filter accepted raws).
Proof.
  unfold session.
  assert (H : forall l g, attempts (fold_left submit l g)
                          = attempts g + Py.len (filter accepted l)).
  { induction l as [| raw l IH]; intros g; cbn [fold_left filter].
    - unfold Py.len. cbn. lia.
    - rewrite IH, submit_attempts. unfold Py.len.
      destruct (accepted raw); cbn [length]; lia. }
  rewrite H. cbn [attempts new_game]. lia.
Qed.

Lemma not_accepted_submit_eq (self : game) (raw : Py.str) :
  accepted raw = false -> submit self raw = self.
Proof.
  intros Ha. unfold submit.
  destruct (not_accepted_submit self raw Ha) as [H | H]; rewrite H; reflexivity.
Qed.

(** X5. A submission that is not accepted changes nothing in the engine:
    the call returns the invalid-input message or raises [ValueError], and
    the secret, the counter, the history and both candidate lists are as
    before. *)
Theorem not_accepted_leaves_state (self : game) (raw : Py.str) :
  accepted raw = false ->
  submit self raw = self
  /\ (fst (process_guess self raw) = Ok InvalidInput
      \/ fst (process_guess self raw) = Raise ValueError).
Proof.
  intros Ha. unfold submit.
  destruct (not_accepted_submit self raw Ha) as [H | H]; rewrite H;
    (split; [reflexivity |]); [now left | now right].
Qed.

Lemma not_accepted_leaves_state_witness :
  accepted (Py.of_string "12a3") = false
  /\ submit (new_game [1; 2; 3; 4]) (Py.of_string "12a3") = new_game [1; 2; 3; 4].
Proof.
  assert (Ha : accepted (Py.of_string "12a3") = false) by reflexivity.
  split; [exact Ha |].
  exact (proj1 (not_accepted_leaves_state (new_game [1; 2; 3; 4]) _ Ha)).
Defined.

(** X6. [reset_game] puts a used engine back in the state of a newly
    constructed one: from any reachable state, resetting with draw [s]
    yields exactly the state [__init__] builds for [s]. *)
Theorem reset_game_is_new_game (g : game) (s : code) :
  reachable g -> init s = Ok (reset_game g s).
Proof.
  intros R. rewrite init_new_game. unfold reset_game, new_game.
  rewrite (reachable_all_possible_guesses g R). reflexivity.
Qed.

Lemma reset_game_is_new_game_witness :
  reachable (session [1; 2; 3; 4] [Py.of_string "5678"])
  /\ init [4; 0; 2; 9]
     = Ok (reset_game (session [1; 2; 3; 4] [Py.of_string "5678"]) [4; 0; 2; 9]).
Proof.
  assert (R : reachable (session [1; 2; 3; 4] [Py.of_string "5678"])).
  { unfold session. cbn [fold_left]. apply reach_guess.
    apply reachable_new_game, is_sample_1234. }
  split; [exact R |].
  exact (reset_game_is_new_game _ [4; 0; 2; 9] R).
Defined.

(** ** Range of the reported numbers *)

Lemma round2_log2_nonneg (n : Z) : 0 <= round2_log2 n.
Proof.
  unfold round2_log2. pose proof (Z.log2_nonneg (n ^ 200)).
  apply Z.div_pos; lia.
Qed.

Lemma round2_log2_mono (n m : Z) :
  0 <= n <= m -> round2_log2 n <= round2_log2 m.
Proof.
  intros H. unfold round2_log2. apply Z.div_le_mono; [lia |].
  apply Z.add_le_mono_r, Z.log2_le_mono, Z.pow_le_mono_l. exact H.
Qed.

Lemma entropy_of_size_range (n : Z) :
  n <= 4536 -> 0 <= entropy_of_size n <= 1215.
Proof.
  intros Hn. unfold entropy_of_size. destruct (Z.gtb_spec n 0); [| lia].
  split; [apply round2_log2_nonneg |].
  change 1215 with (round2_log2 4536). apply round2_log2_mono. lia.
Qed.

Lemma entropy_of_size_zero (n : Z) : entropy_of_size n = 0 <-> n <= 1.
Proof.
  unfold entropy_of_size. destruct (Z.gtb_spec n 0) as [Hpos | Hle]; [| lia].
  destruct (Z.eq_dec n 1) as [-> | Hne]; [split; [lia | reflexivity] |].
  assert (H2 : round2_log2 2 <= round2_log2 n) by (apply round2_log2_mono; lia).
  change (round2_log2 2) with 100 in H2. lia.
Qed.

Lemma universe_length : Py.len universe = 4536.
Proof. vm_compute. reflexivity. Qed.

Lemma reachable_entropy_range (g : game) :
  reachable g -> 0 <= calculate_entropy g <= 1215.
Proof.
  intros R. rewrite calculate_entropy_size. apply entropy_of_size_range.
  pose proof (valid_guesses_bounded g R). rewrite universe_length in *. lia.
Qed.

(** X7. In every reachable state the entropy [calculate_entropy] reports
    lies between 0 and 12.15, and it is 0 exactly when at most one
    candidate is left. *)
Theorem calculate_entropy_range (g : game) :
  reachable g ->
  0 <= calculate_entropy g <= 1215
  /\ (calculate_entropy g = 0 <-> Py.len (valid_guesses g) <= 1).
Proof.
  intros R. split; [now apply reachable_entropy_range |].
  rewrite calculate_entropy_size. apply entropy_of_size_zero.
Qed.

Lemma calculate_entropy_range_witness :
  reachable (session [1; 2; 3; 4] [Py.of_string "1243"])
  /\ 0 <= calculate_entropy (session [1; 2; 3; 4] [Py.of_string "1243"]) <= 1215.
Proof.
  assert (R : reachable (session [1; 2; 3; 4] [Py.of_string "1243"])).
  { unfold session. cbn [fold_left]. apply reach_guess.
    apply reachable_new_game, is_sample_1234. }
  split; [exact R |].
  exact (proj1 (calculate_entropy_range _ R)).
Defined.

(** X8. The tuple a processed guess returns in a reachable state has
    between 0 and 3 bulls (4 bulls return the congratulation instead),
    between 0 and 4 cows, at most 4 bulls and cows together, an entropy
    between 0 and 12.15 and a mutual information between -12.15 and
    12.15. *)
Theorem process_guess_progress_range
    (g : game) (raw : Py.str) (b c mi e : Z) :
  reachable g ->
  fst (process_guess g raw) = Ok (Progress b c mi e) ->
  0 <= b <= 3 /\ 0 <= c <= 4 /\ b + c <= 4
  /\ - 1215 <= mi <= 1215 /\ 0 <= e <= 1215.
Proof.
  intros R H.
  pose proof (process_guess_progress g raw b c mi e H) as [Hmi He].
  pose proof (reachable_entropy_range g R) as H1.
  pose proof (reachable_entropy_range (submit g raw) (reach_guess g raw R)) as H2.
  destruct (process_guess_cases g raw)
    as [[_ Hp] | [[_ [_ Hp]] | [guess [Hv [Hg _]]]]];
    [rewrite Hp in H; discriminate | rewrite Hp in H; discriminate |].
  rewrite (process_guess_accepted g raw guess Hv Hg) in H.
  destruct (reachable_is_sample g R) as [Hlen [Hnd _]].
  pose proof (bulls_and_cows_range (secret g) guess Hlen Hnd) as Hb.
  destruct (Z.eqb_spec (fst (bulls_and_cows (secret g) guess)) 4) as [H4 | H4];
    [discriminate |].
  injection H as <- <- _ _.
  unfold bulls_and_cows in Hb, H4. cbn [fst snd] in Hb, H4. lia.
Qed.

Lemma process_guess_progress_range_witness :
  reachable (session [1; 2; 3; 4] [Py.of_string "1243"])
  /\ fst (process_guess (session [1; 2; 3; 4] [Py.of_string "1243"])
                        (Py.of_string "5678"))
     = Ok (Progress 0 0 (-565) 823)
  /\ - 1215 <= -565 <= 1215.
Proof.
  assert (R : reachable (session [1; 2; 3; 4] [Py.of_string "1243"])).
  { unfold session. cbn [fold_left]. apply reach_guess.
    apply reachable_new_game, is_sample_1234. }
  assert (H : fst (process_guess (session [1; 2; 3; 4] [Py.of_string "1243"])
                                 (Py.of_string "5678"))
              = Ok (Progress 0 0 (-565) 823)) by (vm_compute; reflexivity).
  split; [exact R | split; [exact H |]].
  exact (proj1 (proj2 (proj2 (proj2
    (process_guess_progress_range _ _ _ _ _ _ R H))))).
Defined.

(** X9. The first guess processed by a new or reset engine never has a
    negative mutual information: the candidate list is then the whole
    universe, and no filter result is longer. *)
Theorem first_guess_mutual_information_nonneg
    (s : code) (raw : Py.str) (b c mi e : Z) :
  is_sample s ->
  fst (process_guess (new_game s) raw) = Ok (Progress b c mi e) ->
  0 <= mi /\ mi = 1215 - e.
Proof.
  intros Hs H.
  pose proof (process_guess_progress (new_game s) raw b c mi e H) as [Hmi He].
  pose proof (reachable_new_game s Hs) as R.
  pose proof (reachable_entropy_range _ (reach_guess _ raw R)) as H2.
  assert (H0 : calculate_entropy (new_game s) = 1215) by (vm_compute; reflexivity).
  lia.
Qed.

Lemma first_guess_mutual_information_nonneg_witness :
  is_sample [1; 2; 3; 4]
  /\ fst (process_guess (new_game [1; 2; 3; 4]) (Py.of_string "5678"))
     = Ok (Progress 0 0 392 823)
  /\ 0 <= 392 /\ 392 = 1215 - 823.
Proof.
  assert (H : fst (process_guess (new_game [1; 2; 3; 4]) (Py.of_string "5678"))
              = Ok (Progress 0 0 392 823)) by (vm_compute; reflexivity).
  split; [exact is_sample_1234 | split; [exact H |]].
  exact (first_guess_mutual_information_nonneg _ _ _ _ _ _ is_sample_1234 H).
Defined.

(** ** The universe and the candidate list *)

Lemma increasing_Forall (x : Z) (l : list Z) :
  increasing (x :: l) = true -> Forall (fun y => x < y) l.
Proof.
  revert x. induction l as [| y l IH]; intros x H; [constructor |].
  cbn [increasing] in H. apply andb_true_iff in H. destruct H as [Hxy Hl].
  apply Z.ltb_lt in Hxy. constructor; [exact Hxy |].
  specialize (IH y Hl). rewrite Forall_forall in *.
  intros z Hz. specialize (IH z Hz). lia.
Qed.

Lemma increasing_NoDup (l : list Z) : increasing l = true -> NoDup l.
Proof.
  induction l as [| x l IH]; intros H; [constructor |].
  pose proof (increasing_Forall x l H) as Hlt. constructor.
  - intros Hin. rewrite Forall_forall in Hlt. specialize (Hlt x Hin). lia.
  - apply IH. destruct l as [| y l]; [reflexivity |].
    cbn [increasing] in H. apply andb_true_iff in H. tauto.
Qed.

Lemma universe_increasing : increasing (map code_number universe) = true.
Proof. vm_compute. reflexivity. Qed.

Lemma universe_NoDup : NoDup universe.
Proof.
  apply (NoDup_map_inv code_number), increasing_NoDup, universe_increasing.
Qed.

(** X10. [generate_possible_guesses] does not raise; the list it returns
    holds every code of four pairwise distinct digits whose first digit is
    not 0 and nothing else, each once, in increasing numerical order. *)
Theorem generate_possible_guesses_spec :
  exists u, generate_possible_guesses = Ok u
    /\ NoDup u
    /\ increasing (map code_number u) = true
    /\ forall c, In c u <->
         length c = 4%nat /\ NoDup c /\ Forall (fun d => 0 <= d <= 9) c
         /\ hd 0 c <> 0.
Proof.
  exists universe. split; [apply generate_possible_guesses_universe |].
  split; [apply universe_NoDup |].
  split; [apply universe_increasing | apply universe_spec].
Qed.

Lemma reachable_valid_guesses (g : game) :
  reachable g ->
  NoDup (valid_guesses g) /\ incl (valid_guesses g) universe.
Proof.
  induction 1 as [s g _ Hinit | g raw R IH | g s R _ _].
  - rewrite init_new_game in Hinit. injection Hinit as <-.
    cbn [valid_guesses new_game]. split; [apply universe_NoDup | apply incl_refl].
  - destruct (accepted raw) eqn:Ha.
    + destruct (accepted_inv raw Ha) as [Hv [guess Hg]].
      rewrite (submit_valid_guesses g raw guess Hv Hg).
      rewrite (reachable_all_possible_guesses g R). split.
      * apply NoDup_filter, universe_NoDup.
      * apply incl_filter.
    + unfold submit. destruct (not_accepted_submit g raw Ha) as [H | H];
        rewrite H; exact IH.
  - cbn [valid_guesses reset_game]. rewrite (reachable_all_possible_guesses g R).
    split; [apply universe_NoDup | apply incl_refl].
Qed.

(** X11. In every reachable state [valid_guesses] lists each candidate
    once, and each candidate is one of [all_possible_guesses]: a code of
    four pairwise distinct digits with a non-zero first digit. *)
Theorem valid_guesses_well_formed (g : game) :
  reachable g ->
  NoDup (valid_guesses g)
  /\ forall c, In c (valid_guesses g) ->
       In c (all_possible_guesses g)
       /\ length c = 4%nat /\ NoDup c /\ Forall (fun d => 0 <= d <= 9) c
       /\ hd 0 c <> 0.
Proof.
  intros R. destruct (reachable_valid_guesses g R) as [Hnd Hincl].
  split; [exact Hnd |]. intros c Hc. specialize (Hincl c Hc).
  rewrite (reachable_all_possible_guesses g R).
  split; [exact Hincl | now apply universe_spec].
Qed.

Lemma valid_guesses_well_formed_witness :
  reachable (session [1; 2; 3; 4] [Py.of_string "1243"])
  /\ NoDup (valid_guesses (session [1; 2; 3; 4] [Py.of_string "1243"])).
Proof.
  assert (R : reachable (session [1; 2; 3; 4] [Py.of_string "1243"])).
  { unfold session. cbn [fold_left]. apply reach_guess.
    apply reachable_new_game, is_sample_1234. }
  split; [exact R |].
  exact (proj1 (valid_guesses_well_formed _ R)).
Defined.

Lemma int_char_range (c d : Z) : Py.int_char c = Some d -> 0 <= d <= 9.
Proof.
  unfold Py.int_char. destruct (find (Py.in_range c) Py.decimal_ranges) as [r |];
    [| discriminate].
  intros H. injection H as <-.
  pose proof (Z.mod_pos_bound (c - fst r) 10 ltac:(lia)). lia.
Qed.

Lemma map_int_digits (raw : Py.str) (guess : code) :
  Py.map_int raw = Some guess -> Forall (fun d => 0 <= d <= 9) guess.
Proof.
  revert guess. induction raw as [| c raw IH]; intros guess H; cbn [Py.map_int] in H.
  - injection H as <-. constructor.
  - destruct (Py.int_char c) as [d |] eqn:Hc; [| discriminate].
    destruct (Py.map_int raw) as [ds |]; [| discriminate].
    injection H as <-. constructor; [now apply (int_char_range c) | now apply IH].
Qed.

(** X12. A processed guess with pairwise distinct digits and a non-zero
    first digit is itself among the candidates the call leaves, so the
    candidate list is then not empty. *)
Theorem processed_guess_stays_candidate (g : game) (raw : Py.str) (guess : code) :
  reachable g ->
  passes_validation raw = true -> Py.map_int raw = Some guess ->
  NoDup guess -> hd 0 guess <> 0 ->
  In guess (valid_guesses (submit g raw))
  /\ 1 <= Py.len (valid_guesses (submit g raw)).
Proof.
  intros R Hv Hg Hnd Hhd.
  assert (Hin : In guess (valid_guesses (submit g raw))).
  { rewrite (submit_valid_guesses g raw guess Hv Hg).
    rewrite (reachable_all_possible_guesses g R). apply filter_In. split.
    - apply universe_spec. split; [| split; [exact Hnd | split; [| exact Hhd]]].
      + rewrite (map_int_length raw guess Hg). now apply passes_validation_length.
      + now apply (map_int_digits raw).
    - now apply feedback_eqb_eq. }
  split; [exact Hin |].
  unfold Py.len. destruct (valid_guesses (submit g raw)); [contradiction |].
  cbn [length]. lia.
Qed.

Lemma processed_guess_stays_candidate_witness :
  reachable (new_game [1; 2; 3; 4])
  /\ passes_validation (Py.of_string "5678") = true
  /\ In [5; 6; 7; 8] (valid_guesses (submit (new_game [1; 2; 3; 4]) (Py.of_string "5678"))).
Proof.
  assert (R : reachable (new_game [1; 2; 3; 4]))
    by (apply reachable_new_game, is_sample_1234).
  split; [exact R | split; [reflexivity |]].
  refine (proj1 (processed_guess_stays_candidate _ (Py.of_string "5678") [5; 6; 7; 8]
                   R eq_refl eq_refl _ _)).
  - repeat constructor; cbn [In]; intuition lia.
  - cbn [hd]. lia.
Defined.

Lemma filter_code_eqb (s : code) (l : list code) :
  NoDup l -> filter (code_eqb s) l = if existsb (code_eqb s) l then [s] else [].
Proof.
  induction l as [| c l IH]; intros Hnd; [reflexivity |].
  inversion Hnd as [| ? ? Hnin Hnd']; subst. cbn [filter existsb].
  destruct (code_eqb s c) eqn:E.
  - apply code_eqb_eq in E. subst c. cbn [orb]. f_equal.
    rewrite (IH Hnd'). destruct (existsb (code_eqb s) l) eqn:Ex; [| reflexivity].
    exfalso. apply Hnin. now apply In_code.
  - cbn [orb]. now apply IH.
Qed.

(** X13. A winning guess narrows the candidate list to the secret alone
    when the secret's first digit is not 0, and to the empty list when it
    is 0 (such a secret is not in the universe); in both cases the entropy
    afterwards is 0. *)
Theorem winning_guess_candidates (g : game) (raw : Py.str) :
  reachable g ->
  passes_validation raw = true -> Py.map_int raw = Some (secret g) ->
  valid_guesses (submit g raw)
    = (if hd 0 (secret g) =? 0 then [] else [secret g])
  /\ calculate_entropy (submit g raw) = 0.
Proof.
  intros R Hv Hg.
  destruct (reachable_is_sample g R) as [Hlen [Hnd Hdig]].
  assert (Hval : valid_guesses (submit g raw)
                 = if hd 0 (secret g) =? 0 then [] else [secret g]).
  { rewrite (submit_valid_guesses g raw (secret g) Hv Hg).
    rewrite (reachable_all_possible_guesses g R).
    rewrite (filter_ext_in _ (code_eqb (secret g))).
    - rewrite (filter_code_eqb _ _ universe_NoDup).
      destruct (Z.eqb_spec (hd 0 (secret g)) 0) as [H0 | H0].
      + destruct (existsb (code_eqb (secret g)) universe) eqn:Ex; [| reflexivity].
        apply In_code, universe_spec in Ex. tauto.
      + destruct (existsb (code_eqb (secret g)) universe) eqn:Ex; [reflexivity |].
        assert (Hin : In (secret g) universe) by (apply universe_spec; tauto).
        apply In_code in Hin. congruence.
    - intros c Hc. apply universe_spec in Hc. destruct Hc as [Hc4 _].
      rewrite (bulls_and_cows_self (secret g) Hnd).
      destruct (code_eqb (secret g) c) eqn:E.
      + apply code_eqb_eq in E. subst c.
        rewrite (bulls_and_cows_self (secret g) Hnd). now apply feedback_eqb_eq.
      + destruct (feedback_eqb (bulls_and_cows (secret g) c) (Py.len (secret g), 0))
          eqn:F; [| reflexivity].
        apply feedback_eqb_eq in F. unfold bulls_and_cows in F.
        injection F as F _.
        apply (count_bulls_all (secret g) c) in F; [| congruence].
        subst c. assert (code_eqb (secret g) (secret g) = true) by now apply code_eqb_eq.
        congruence. }
  split; [exact Hval |].
  rewrite calculate_entropy_size. apply entropy_of_size_zero. rewrite Hval.
  destruct (hd 0 (secret g) =? 0); unfold Py.len; cbn [length]; lia.
Qed.

Lemma winning_guess_candidates_witness :
  reachable (new_game [1; 2; 3; 4])
  /\ valid_guesses (submit (new_game [1; 2; 3; 4]) (Py.of_string "1234"))
     = [[1; 2; 3; 4]].
Proof.
  assert (R : reachable (new_game [1; 2; 3; 4]))
    by (apply reachable_new_game, is_sample_1234).
  split; [exact R |].
  exact (proj1 (winning_guess_candidates _ (Py.of_string "1234") R eq_refl eq_refl)).
Defined.

(** X14. Submitting the same string a second time changes neither the
    candidate list nor the entropy, and when the second call returns a
    tuple its mutual information is 0. *)
Theorem repeated_guess_gains_nothing (g : game) (raw : Py.str) :
  valid_guesses (submit (submit g raw) raw) = valid_guesses (submit g raw)
  /\ forall b c mi e,
       fst (process_guess (submit g raw) raw) = Ok (Progress b c mi e) ->
       mi = 0 /\ e = calculate_entropy (submit g raw).
Proof.
  assert (Hsame : valid_guesses (submit (submit g raw) raw)
                  = valid_guesses (submit g raw)).
  { destruct (accepted raw) eqn:Ha.
    - destruct (accepted_inv raw Ha) as [Hv [guess Hg]].
      rewrite (submit_valid_guesses (submit g raw) raw guess Hv Hg).
      rewrite (submit_valid_guesses g raw guess Hv Hg).
      rewrite submit_secret, submit_all_possible_guesses. reflexivity.
    - now rewrite !(not_accepted_submit_eq _ raw Ha). }
  split; [exact Hsame |]. intros b c mi e H.
  apply process_guess_progress in H. destruct H as [Hmi He].
  rewrite !calculate_entropy_size, Hsame in *. lia.
Qed.

(** ** Submitted strings: conversion and the exception *)

Lemma int_char_ascii (c : Z) :
  48 <= c <= 57 -> Py.int_char c = Some (c - 48).
Proof.
  intros Hc. unfold Py.int_char, Py.decimal_ranges. cbn [find].
  replace (Py.in_range c (48, 57)) with true
    by (unfold Py.in_range; cbn [fst snd]; symmetry;
        apply andb_true_iff; rewrite !Z.leb_le; lia).
  cbn [fst]. rewrite Z.mod_small by lia. reflexivity.
Qed.

Lemma map_int_ascii (raw : Py.str) :
  Forall (fun c => 48 <= c <= 57) raw ->
  Py.map_int raw = Some (map (fun c => c - 48) raw).
Proof.
  induction 1 as [| c raw Hc _ IH]; [reflexivity |].
  cbn [Py.map_int map]. rewrite (int_char_ascii c Hc), IH. reflexivity.
Qed.

Lemma find_None_existsb {A : Type} (f : A -> bool) (l : list A) :
  find f l = None <-> existsb f l = false.
Proof.
  induction l as [| x l IH]; cbn [find existsb]; [tauto |].
  destruct (f x); cbn [orb]; [split; discriminate | exact IH].
Qed.

Lemma int_char_None (c : Z) :
  Py.int_char c = None <-> Py.isdecimal_char c = false.
Proof.
  unfold Py.int_char, Py.isdecimal_char, Py.in_ranges.
  rewrite <- find_None_existsb.
  destruct (find (Py.in_range c) Py.decimal_ranges); split; congruence.
Qed.

Lemma map_int_None (raw : Py.str) :
  Py.map_int raw = None <-> Exists (fun c => Py.isdecimal_char c = false) raw.
Proof.
  induction raw as [| c raw IH]; cbn [Py.map_int].
  - split; [discriminate | intros H; inversion H].
  - rewrite Exists_cons, <- IH, <- int_char_None.
    destruct (Py.int_char c); [| split; [now left | reflexivity]].
    destruct (Py.map_int raw); split; try discriminate.
    + intros [H | H]; discriminate.
    + intros _. now right.
    + reflexivity.
Qed.

(** X15. On a string made of characters below U+0080, [process_guess]
    never raises: it returns the invalid-input message unless the string
    consists of four pairwise distinct characters of ['0'..'9'], and then
    the guess it processes is the list of their digit values. *)
Theorem process_guess_ascii (g : game) (raw : Py.str) :
  Forall (fun c => c < 128) raw ->
  fst (process_guess g raw) <> Raise ValueError
  /\ (fst (process_guess g raw) = Ok InvalidInput <->
      ~ (length raw = 4%nat /\ Forall (fun c => 48 <= c <= 57) raw /\ NoDup raw))
  /\ (fst (process_guess g raw) <> Ok InvalidInput ->
      Py.map_int raw = Some (map (fun c => c - 48) raw)).
Proof.
  intros Hascii. pose proof (passes_validation_ascii raw Hascii) as Hiff.
  destruct (passes_validation raw) eqn:Hv.
  - assert (Hok : length raw = 4%nat /\ Forall (fun c => 48 <= c <= 57) raw /\ NoDup raw)
      by now apply Hiff.
    assert (Hg : Py.map_int raw = Some (map (fun c => c - 48) raw))
      by (apply map_int_ascii; tauto).
    pose proof (process_guess_accepted g raw _ Hv Hg) as Hr.
    split; [| split].
    + rewrite Hr. destruct (_ =? 4); discriminate.
    + rewrite Hr. split; [destruct (_ =? 4); discriminate | tauto].
    + intros _. exact Hg.
  - rewrite (invalid_input_leaves_state g raw Hv). cbn [fst].
    split; [discriminate | split].
    + split; [| reflexivity]. intros _ Hok. apply Hiff in Hok. discriminate.
    + intros H. now contradiction H.
Qed.

Lemma process_guess_ascii_witness :
  Forall (fun c => c < 128) (Py.of_string "12a3")
  /\ fst (process_guess (new_game [1; 2; 3; 4]) (Py.of_string "12a3"))
     <> Raise ValueError.
Proof.
  assert (H : Forall (fun c => c < 128) (Py.of_string "12a3"))
    by (repeat constructor).
  split; [exact H |].
  exact (proj1 (process_guess_ascii (new_game [1; 2; 3; 4]) _ H)).
Defined.

(** X16. [process_guess] raises [ValueError] exactly on the strings that
    pass the validation and contain a character that is not a decimal
    digit for [int] (a digit for [isdigit] only, such as a superscript). *)
Theorem process_guess_raises_iff (g : game) (raw : Py.str) :
  fst (process_guess g raw) = Raise ValueError <->
  passes_validation raw = true
  /\ Exists (fun c => Py.isdecimal_char c = false) raw.
Proof.
  rewrite <- map_int_None.
  destruct (process_guess_cases g raw)
    as [[Hv Hp] | [[Hv [Hm Hp]] | [guess [Hv [Hg _]]]]].
  - rewrite Hp. cbn [fst]. split; [discriminate | intros [H _]; congruence].
  - rewrite Hp. cbn [fst]. tauto.
  - rewrite (process_guess_accepted g raw guess Hv Hg). split.
    + destruct (_ =? 4); discriminate.
    + intros [_ H]. congruence.
Qed.

(** ** The window *)

Lemma progress_not_four (g : game) (raw : Py.str) (b c mi e : Z) :
  fst (process_guess g raw) = Ok (Progress b c mi e) -> (b =? 4) = false.
Proof.
  intros H.
  destruct (process_guess_cases g raw)
    as [[_ Hp] | [[_ [_ Hp]] | [guess [Hv [Hg _]]]]];
    [rewrite Hp in H; discriminate | rewrite Hp in H; discriminate |].
  rewrite (process_guess_accepted g raw guess Hv Hg) in H.
  destruct (fst (bulls_and_cows (secret g) guess) =? 4) eqn:E; [discriminate |].
  injection H as <- _ _ _. exact E.
Qed.

Lemma progress_attempts (g : game) (raw : Py.str) (b c mi e : Z) :
  fst (process_guess g raw) = Ok (Progress b c mi e) ->
  attempts (snd (process_guess g raw)) = attempts g + 1.
Proof.
  intros H. change (snd (process_guess g raw)) with (submit g raw).
  rewrite submit_attempts. destruct (accepted raw) eqn:Ha; [reflexivity |].
  destruct (not_accepted_submit g raw Ha) as [Hp | Hp]; rewrite Hp in H; discriminate.
Qed.

Lemma process_guess_win (g : game) (raw : Py.str) :
  reachable g -> passes_validation raw = true -> Py.map_int raw = Some (secret g) ->
  fst (process_guess g raw) = Ok (Congratulations (attempts g + 1)).
Proof.
  intros R Hv Hg. destruct (reachable_is_sample g R) as [Hlen [Hnd _]].
  rewrite (process_guess_accepted g raw (secret g) Hv Hg).
  rewrite (bulls_and_cows_self (secret g) Hnd). cbn [fst]. unfold Py.len.
  rewrite Hlen. reflexivity.
Qed.

Lemma ui_step_shown (w : UI.window) (a : UI.action) :
  UI.shown (UI.step w a) = UI.shown w
  \/ exists m, UI.shown (UI.step w a) = UI.shown w ++ [UI.showerror "Invalid Input" m].
Proof.
  destruct a as [text | s]; [| left; reflexivity].
  unfold UI.step, UI.process_guess. cbn [UI.input_entry UI.game_of UI.type_text
    UI.feedback_label UI.guesses_list UI.shown].
  destruct (process_guess (UI.game_of w) text) as [[o | ex] g'] eqn:E.
  - destruct o as [| n | b c mi e]; cbn [snd UI.shown].
    + right. eexists. reflexivity.
    + right. eexists. reflexivity.
    + left. assert (H : fst (process_guess (UI.game_of w) text) = Ok (Progress b c mi e))
        by (rewrite E; reflexivity).
      rewrite (progress_not_four _ _ _ _ _ _ H). reflexivity.
  - left. reflexivity.
Qed.

(** X17. The window never opens the congratulation box: whatever the
    player types, submits and resets, every message box shown is the
    error box titled "Invalid Input".  The engine returns a string on a
    win, which the callback takes for an error message, and a returned
    tuple never has 4 bulls. *)
Theorem ui_never_shows_info (s : code) (actions : list UI.action) :
  Forall (fun d => UI.is_showinfo d = false) (UI.shown (UI.run s actions))
  /\ Forall (fun d => exists m, d = UI.showerror "Invalid Input" m)
            (UI.shown (UI.run s actions)).
Proof.
  unfold UI.run.
  assert (H : forall l w,
             Forall (fun d => exists m, d = UI.showerror "Invalid Input" m) (UI.shown w) ->
             Forall (fun d => exists m, d = UI.showerror "Invalid Input" m)
                    (UI.shown (fold_left UI.step l w))).
  { induction l as [| a l IH]; intros w Hw; [exact Hw |].
    cbn [fold_left]. apply IH.
    destruct (ui_step_shown w a) as [-> | [m ->]]; [exact Hw |].
    apply Forall_app. split; [exact Hw |]. constructor; [| constructor].
    now exists m. }
  assert (Hall : Forall (fun d => exists m, d = UI.showerror "Invalid Input" m)
                        (UI.shown (fold_left UI.step actions (UI.init s)))).
  { apply H. constructor. }
  split; [| exact Hall].
  eapply Forall_impl; [| exact Hall]. intros d [m ->]. reflexivity.
Qed.

(** X18. When the player submits the secret, the window reports the win
    in an error box titled "Invalid Input" that carries the engine's
    congratulation string; the guess is not added to the list of guesses
    and the feedback label keeps its text. *)
Theorem ui_win_is_shown_as_error (w : UI.window) (text : Py.str) :
  reachable (UI.game_of w) ->
  passes_validation text = true -> Py.map_int text = Some (secret (UI.game_of w)) ->
  UI.shown (UI.step w (UI.Submit text))
    = UI.shown w ++ [UI.showerror "Invalid Input"
                       (UI.congratulations_message (attempts (UI.game_of w) + 1))]
  /\ UI.guesses_list (UI.step w (UI.Submit text)) = UI.guesses_list w
  /\ UI.feedback_label (UI.step w (UI.Submit text)) = UI.feedback_label w.
Proof.
  intros R Hv Hg. pose proof (process_guess_win _ text R Hv Hg) as Hwin.
  unfold UI.step, UI.process_guess. cbn [UI.input_entry UI.game_of UI.type_text
    UI.feedback_label UI.guesses_list UI.shown].
  destruct (process_guess (UI.game_of w) text) as [r g'].
  cbn [fst] in Hwin. subst r. cbn. repeat split; reflexivity.
Qed.

Lemma ui_win_is_shown_as_error_witness :
  reachable (UI.game_of (UI.init [1; 2; 3; 4]))
  /\ UI.shown (UI.step (UI.init [1; 2; 3; 4]) (UI.Submit (Py.of_string "1234")))
     = [UI.showerror "Invalid Input" (UI.congratulations_message 1)]
  /\ UI.guesses_list (UI.step (UI.init [1; 2; 3; 4]) (UI.Submit (Py.of_string "1234")))
     = [].
Proof.
  assert (R : reachable (UI.game_of (UI.init [1; 2; 3; 4])))
    by (apply reachable_new_game, is_sample_1234).
  split; [exact R |].
  pose proof (ui_win_is_shown_as_error (UI.init [1; 2; 3; 4]) (Py.of_string "1234")
                R eq_refl eq_refl) as [H1 [H2 _]].
  split; [exact H1 | exact H2].
Defined.

(** X19. At every moment the list of guesses of the window has at most as
    many lines as the engine counts attempts (a winning guess is counted
    but not listed), and the feedback label shows the result of the last
    listed guess, or nothing when the list is empty. *)
Theorem ui_list_and_label (s : code) (actions : list UI.action) :
  let w := UI.run s actions in
  Py.len (UI.guesses_list w) <= attempts (UI.game_of w)
  /\ UI.feedback_label w
     = match rev (UI.guesses_list w) with
       | [] => None
       | line :: _ => Some (snd line)
       end.
Proof.
  cbv zeta. unfold UI.run.
  set (inv := fun w : UI.window =>
    Py.len (UI.guesses_list w) <= attempts (UI.game_of w)
    /\ UI.feedback_label w
       = match rev (UI.guesses_list w) with
         | [] => None
         | line :: _ => Some (snd line)
         end).
  assert (Hstep : forall w a, inv w -> inv (UI.step w a)).
  { intros w [text | s'] [Hlen Hlab]; unfold inv.
    - unfold UI.step, UI.process_guess. cbn [UI.input_entry UI.game_of UI.type_text
        UI.feedback_label UI.guesses_list UI.shown].
      pose proof (submit_attempts (UI.game_of w) text) as Hatt. unfold submit in Hatt.
      destruct (process_guess (UI.game_of w) text) as [[o | ex] g'] eqn:E;
        cbn [snd] in Hatt.
      + destruct o as [| n | b c mi e];
          cbn [snd UI.guesses_list UI.feedback_label UI.game_of].
        * split; [destruct (accepted text); lia | exact Hlab].
        * split; [destruct (accepted text); lia | exact Hlab].
        * assert (H : fst (process_guess (UI.game_of w) text) = Ok (Progress b c mi e))
            by (rewrite E; reflexivity).
          pose proof (progress_attempts _ _ _ _ _ _ H) as Hp.
          rewrite E in Hp. cbn [snd] in Hp. split.
          -- unfold Py.len in *. rewrite length_app. cbn [length]. lia.
          -- rewrite rev_unit. reflexivity.
      + cbn [snd UI.guesses_list UI.feedback_label UI.game_of].
        split; [destruct (accepted text); lia | exact Hlab].
    - cbn. split; [lia | reflexivity]. }
  assert (Hall : forall l w, inv w -> inv (fold_left UI.step l w)).
  { induction l as [| a l IH]; intros w Hw; [exact Hw |].
    cbn [fold_left]. apply IH, Hstep, Hw. }
  apply (Hall actions (UI.init s)). unfold inv. cbn. split; [lia | reflexivity].
Qed.

(** X21. A string that passes the validation but holds a character [int]
    rejects gets no answer in the window: the callback ends with the
    engine's [ValueError], no message box is opened, and engine, label and
    list are as before. *)
Theorem ui_value_error_is_silent (w : UI.window) (text : Py.str) :
  passes_validation text = true ->
  Exists (fun c => Py.isdecimal_char c = false) text ->
  fst (UI.process_guess (UI.type_text w text)) = Raise ValueError
  /\ UI.step w (UI.Submit text) = UI.type_text w text.
Proof.
  intros Hv Hex. apply map_int_None in Hex.
  destruct (process_guess_cases (UI.game_of w) text)
    as [[Hp _] | [[_ [_ H]] | [guess [_ [Hg _]]]]]; [congruence | | congruence].
  unfold UI.step, UI.process_guess. cbn [UI.input_entry UI.game_of UI.type_text
    UI.feedback_label UI.guesses_list UI.shown].
  rewrite H. split; reflexivity.
Qed.

Lemma ui_value_error_is_silent_witness :
  passes_validation [49; 50; 51; 178] = true
  /\ UI.step (UI.init [1; 2; 3; 4]) (UI.Submit [49; 50; 51; 178])
     = UI.type_text (UI.init [1; 2; 3; 4]) [49; 50; 51; 178].
Proof.
  assert (Hv : passes_validation [49; 50; 51; 178] = true) by reflexivity.
  split; [exact Hv |].
  refine (proj2 (ui_value_error_is_silent (UI.init [1; 2; 3; 4]) [49; 50; 51; 178] Hv _)).
  do 3 apply Exists_cons_tl. apply Exists_cons_hd. reflexivity.
Defined.

(** ** Mutual information and the size of the candidate list *)

Lemma entropy_of_size_mono (n m : Z) :
  n <= m -> entropy_of_size n <= entropy_of_size m.
Proof.
  intros H. unfold entropy_of_size.
  destruct (Z.gtb_spec n 0), (Z.gtb_spec m 0); try lia.
  - apply round2_log2_mono. lia.
  - apply round2_log2_nonneg.
Qed.

(** X20. The mutual information of a processed guess is negative only if
    the candidate list grew: whenever the list after the call is not
    longer than before, the returned mutual information is at least 0, and
    it is 0 when the length did not change. *)
Theorem mutual_information_sign
    (g : game) (raw : Py.str) (b c mi e : Z) :
  fst (process_guess g raw) = Ok (Progress b c mi e) ->
  (Py.len (valid_guesses (submit g raw)) <= Py.len (valid_guesses g) -> 0 <= mi)
  /\ (Py.len (valid_guesses (submit g raw)) = Py.len (valid_guesses g) -> mi = 0).
Proof.
  intros H. apply process_guess_progress in H. destruct H as [Hmi _].
  rewrite !calculate_entropy_size in Hmi. split; intros Hlen.
  - pose proof (entropy_of_size_mono _ _ Hlen). lia.
  - rewrite Hlen in Hmi. lia.
Qed.

Lemma mutual_information_sign_witness :
  fst (process_guess (new_game [1; 2; 3; 4]) (Py.of_string "5678"))
    = Ok (Progress 0 0 392 823)
  /\ 0 <= 392.
Proof.
  assert (H : fst (process_guess (new_game [1; 2; 3; 4]) (Py.of_string "5678"))
              = Ok (Progress 0 0 392 823)) by (vm_compute; reflexivity).
  split; [exact H |].
  apply (proj1 (mutual_information_sign _ _ _ _ _ _ H)).
  vm_compute. discriminate.
Defined.

Lemma repeated_guess_gains_nothing_witness :
  fst (process_guess (submit (new_game [1; 2; 3; 4]) (Py.of_string "5678"))
                     (Py.of_string "5678"))
    = Ok (Progress 0 0 0 823)
  /\ (0 = 0 /\ 823 = calculate_entropy (submit (new_game [1; 2; 3; 4]) (Py.of_string "5678"))).
Proof.
  assert (H : fst (process_guess (submit (new_game [1; 2; 3; 4]) (Py.of_string "5678"))
                                 (Py.of_string "5678"))
              = Ok (Progress 0 0 0 823)) by (vm_compute; reflexivity).
  split; [exact H |].
  exact (proj2 (repeated_guess_gains_nothing (new_game [1; 2; 3; 4]) (Py.of_string "5678"))
               0 0 0 823 H).
Defined.
